(** * DocuMind: retrieval pipeline, document processor and HTTP handlers

    A shallow embedding of [backend/document_processor.py],
    [backend/rag_pipeline.py] and [backend/main.py].

    Conventions of the embedding.
    - A Python [str] is a [string] whose characters are the code points
      U+0000 .. U+00FF (one [ascii] per code point); [str.lower],
      [str.strip] and [str.encode] are written out for that range.
    - Python [float]s (similarity scores, clock readings) are rationals [Q].
    - Python [int]s are [Z].
    - The relational tables are lists of rows in table order, the Redis
      store is a finite map from keys to (value, time-to-live) pairs.
    - Remote capabilities (embedding, completion), the digest function, the
      vector distance operator, the clock and the document readers are
      fields of the classes [Capabilities] and [FileReaders]; every
      theorem holds for all their instances. *)

From Stdlib Require Import Ascii QArith.
From stdpp Require Import base option list sorting gmap strings pretty.

Open Scope string_scope.
Open Scope list_scope.

(** ** Python strings *)

Module Py.

Definition nl : string := String "010"%char EmptyString.

(** [str.lower] on one code point of U+0000 .. U+00FF: the upper-case
    letters are A-Z, and U+00C0 .. U+00DE without the multiplication sign
    U+00D7; each has its lower case 32 code points further. *)
Definition char_lower (c : ascii) : ascii :=
  let n := N_of_ascii c in
  if ((65 <=? n) && (n <=? 90) || (192 <=? n) && (n <=? 222) && negb (n =? 215))%N
  then ascii_of_N (n + 32) else c.

Fixpoint lower (s : string) : string :=
  match s with
  | EmptyString => EmptyString
  | String c s' => String (char_lower c) (lower s')
  end.

(** [str.isspace] on one code point of U+0000 .. U+00FF: TAB .. CR,
    FS .. US, SPACE, NEL and NBSP. *)
Definition isspace (c : ascii) : bool :=
  let n := N_of_ascii c in
  ((9 <=? n) && (n <=? 13) || (28 <=? n) && (n <=? 32) || (n =? 133) || (n =? 160))%N.

Definition is_empty (s : string) : bool :=
  match s with EmptyString => true | String _ _ => false end.

Definition nonempty (s : string) : Prop := s <> "".

Fixpoint lstrip (s : string) : string :=
  match s with
  | EmptyString => EmptyString
  | String c s' => if isspace c then lstrip s' else s
  end.

Fixpoint rstrip (s : string) : string :=
  match s with
  | EmptyString => EmptyString
  | String c s' =>
      let r := rstrip s' in
      if is_empty r && isspace c then EmptyString else String c r
  end.

(** [s.strip()] *)
Definition strip (s : string) : string := rstrip (lstrip s).

(** [c in s] for a character [c] *)
Fixpoint has_char (c : ascii) (s : string) : bool :=
  match s with
  | EmptyString => false
  | String a s' => Ascii.eqb a c || has_char c s'
  end.

(** [len(s)] *)
Definition len (s : string) : Z := Z.of_nat (String.length s).

Fixpoint drop (n : nat) (s : string) : string :=
  match n, s with
  | O, _ => s
  | S n', EmptyString => EmptyString
  | S n', String _ s' => drop n' s'
  end.

Fixpoint take (n : nat) (s : string) : string :=
  match n, s with
  | O, _ => EmptyString
  | S n', EmptyString => EmptyString
  | S n', String c s' => String c (take n' s')
  end.

(** [s.rfind(c)], counting positions from [i] on: the greatest index of
    [c], or -1 *)
Fixpoint rfind_from (c : ascii) (i : Z) (s : string) : Z :=
  match s with
  | EmptyString => -1
  | String a s' =>
      let r := rfind_from c (i + 1) s' in
      if (0 <=? r)%Z then r else if Ascii.eqb a c then i else -1
  end.

Definition rfind (c : ascii) (s : string) : Z := rfind_from c 0 s.

(** [s.split(sep)] for a one-character separator *)
Fixpoint split (sep : ascii) (s : string) : list string :=
  match s with
  | EmptyString => [EmptyString]
  | String a s' =>
      if Ascii.eqb a sep then EmptyString :: split sep s'
      else match split sep s' with
           | [] => [String a EmptyString]
           | p :: ps => String a p :: ps
           end
  end.

(** [sep.join(parts)] *)
Fixpoint join (sep : string) (parts : list string) : string :=
  match parts with
  | [] => EmptyString
  | [p] => p
  | p :: ps => p +:+ sep +:+ join sep ps
  end.

(** [str.encode()]: UTF-8, one byte below U+0080 and two bytes from there
    to U+00FF *)
Fixpoint encode (s : string) : list N :=
  match s with
  | EmptyString => []
  | String c s' =>
      let n := N_of_ascii c in
      if (n <? 128)%N then n :: encode s'
      else N.lor 192 (N.shiftr n 6) :: N.lor 128 (N.land n 63) :: encode s'
  end.

(** *** [pathlib.PurePosixPath]: [name] and [suffix] *)

Definition is_component (x : string) : bool :=
  negb (String.eqb x "") && negb (String.eqb x ".").

(** the final component, the empty string when there is none *)
Definition path_name (p : string) : string :=
  List.last (List.filter is_component (split "/" p)) "".

(** the final component's last dot and what follows, unless the dot is
    its first or last character *)
Definition path_suffix (p : string) : string :=
  let name := path_name p in
  let i := rfind "." name in
  if (0 <? i)%Z && (i <? len name - 1)%Z then drop (Z.to_nat i) name else "".

End Py.

(** ** Exceptions and results *)

(** The exceptions of the model are all subclasses of Python's [Exception]:
    a library or built-in exception with its class name and message, and
    FastAPI's [HTTPException]. *)
Inductive exn : Type :=
  | Exception (class_name : string) (msg : string)
  | HTTPException (status_code : Z) (detail : string).

(** [str(e)] *)
Definition exn_str (e : exn) : string :=
  match e with
  | Exception _ msg => msg
  | HTTPException status_code detail => pretty status_code +:+ ": " +:+ detail
  end.

Inductive result (A : Type) : Type :=
  | Ok (a : A)
  | Raise (e : exn).
Arguments Ok {A} a.
Arguments Raise {A} e.

(** JSON text, represented by the value it encodes:
    [json.loads(json.dumps(v)) == v] for the dictionaries of strings,
    numbers, booleans and lists that the pipeline serialises. *)
Inductive json (A : Type) : Type := json_dumps (v : A).
Arguments json_dumps {A} v.

Definition json_loads {A : Type} (j : json A) : A :=
  match j with json_dumps v => v end.

(** ** Data model ([database.py] and the dictionaries passed around) *)

(** an embedding vector *)
Definition vector : Type := list Q.

(** a value of an extraction metadata dictionary *)
Inductive meta_value : Type :=
  | MInt (n : Z)
  | MStr (s : string).

Module Document.
Record t : Type := mk {
  id : Z;
  filename : string;
  file_type : string;
  content : string;
  file_size : Z;
  page_count : option Z;
  processed : bool
}.
End Document.

Module DocumentChunk.
Record t : Type := mk {
  id : Z;
  document_id : Z;
  chunk_index : Z;
  content : string;
  embedding : option vector;
  metadata : gmap string meta_value
}.
End DocumentChunk.

(** one entry of a bundle's [sources] list *)
Module Source.
Record t : Type := mk {
  document_id : Z;
  chunk_index : Z;
  similarity_score : Q;
  content_preview : string
}.
End Source.

Module ChatHistory.
Record t : Type := mk {
  id : Z;
  session_id : string;
  query : string;
  response : string;
  sources : json (list Source.t);
  response_time : Q
}.
End ChatHistory.

(** the answer bundle returned by [generate_answer] *)
Module Bundle.
Record t : Type := mk {
  answer : string;
  sources : list Source.t;
  response_time : Q;
  cached : bool
}.
End Bundle.

(** a chunk dictionary built by [chunk_text] *)
Module ChunkDoc.
Record t : Type := mk {
  content : string;
  chunk_index : Z;
  metadata : gmap string meta_value
}.
End ChunkDoc.

(** an invocation of a remote capability *)
Inductive call : Type :=
  | EmbedQuery (text : string)
  | EmbedDocuments (texts : list string)
  | ChainRun (context question : string).

(** ** The state the handlers act on

    The three tables with their id sequences, the Redis store behind
    [redis_client] with the pipeline's [cache_enabled] flag, the files on
    disk, the queue of background tasks, standard output, the number of
    clock readings taken and the log of remote calls.  The columns with
    a database-side default timestamp ([upload_date], [timestamp]) are
    left out: no modelled operation reads them. *)
Record World : Type := mkWorld {
  documents : list Document.t;
  document_chunks : list DocumentChunk.t;
  chat_history : list ChatHistory.t;
  documents_id_seq : Z;
  document_chunks_id_seq : Z;
  chat_history_id_seq : Z;
  redis : gmap string (json Bundle.t * Z);
  cache_enabled : bool;
  files : gmap string (list N);
  background_tasks : list (Z * string * string);
  stdout : list string;
  clock : nat;
  calls : list call
}.

(** ** State and exception monad *)

Definition M (A : Type) : Type := World -> result A * World.

#[export] Instance M_ret : MRet M := fun A a w => (Ok a, w).

#[export] Instance M_bind : MBind M := fun A B f m w =>
  match m w with
  | (Ok a, w') => f a w'
  | (Raise e, w') => (Raise e, w')
  end.

Definition raise {A : Type} (e : exn) : M A := fun w => (Raise e, w).

(** [try: m  except Exception as e: h e] *)
Definition try_except {A : Type} (m : M A) (h : exn -> M A) : M A := fun w =>
  match m w with
  | (Ok a, w') => (Ok a, w')
  | (Raise e, w') => h e w'
  end.

Definition get_world : M World := fun w => (Ok w, w).
Definition modify (f : World -> World) : M unit := fun w => (Ok tt, f w).

(** a result of a capability, lifted into the monad *)
Definition lift {A : Type} (r : result A) : M A := fun w => (r, w).

(** field updates of the state *)
Definition set_documents (v : list Document.t) (w : World) : World :=
  mkWorld v (document_chunks w) (chat_history w) (documents_id_seq w)
    (document_chunks_id_seq w) (chat_history_id_seq w) (redis w)
    (cache_enabled w) (files w) (background_tasks w) (stdout w) (clock w) (calls w).
Definition set_document_chunks (v : list DocumentChunk.t) (w : World) : World :=
  mkWorld (documents w) v (chat_history w) (documents_id_seq w)
    (document_chunks_id_seq w) (chat_history_id_seq w) (redis w)
    (cache_enabled w) (files w) (background_tasks w) (stdout w) (clock w) (calls w).
Definition set_chat_history (v : list ChatHistory.t) (w : World) : World :=
  mkWorld (documents w) (document_chunks w) v (documents_id_seq w)
    (document_chunks_id_seq w) (chat_history_id_seq w) (redis w)
    (cache_enabled w) (files w) (background_tasks w) (stdout w) (clock w) (calls w).
Definition set_documents_id_seq (v : Z) (w : World) : World :=
  mkWorld (documents w) (document_chunks w) (chat_history w) v
    (document_chunks_id_seq w) (chat_history_id_seq w) (redis w)
    (cache_enabled w) (files w) (background_tasks w) (stdout w) (clock w) (calls w).
Definition set_document_chunks_id_seq (v : Z) (w : World) : World :=
  mkWorld (documents w) (document_chunks w) (chat_history w) (documents_id_seq w)
    v (chat_history_id_seq w) (redis w)
    (cache_enabled w) (files w) (background_tasks w) (stdout w) (clock w) (calls w).
Definition set_chat_history_id_seq (v : Z) (w : World) : World :=
  mkWorld (documents w) (document_chunks w) (chat_history w) (documents_id_seq w)
    (document_chunks_id_seq w) v (redis w)
    (cache_enabled w) (files w) (background_tasks w) (stdout w) (clock w) (calls w).
Definition set_redis (v : gmap string (json Bundle.t * Z)) (w : World) : World :=
  mkWorld (documents w) (document_chunks w) (chat_history w) (documents_id_seq w)
    (document_chunks_id_seq w) (chat_history_id_seq w) v
    (cache_enabled w) (files w) (background_tasks w) (stdout w) (clock w) (calls w).
Definition set_files (v : gmap string (list N)) (w : World) : World :=
  mkWorld (documents w) (document_chunks w) (chat_history w) (documents_id_seq w)
    (document_chunks_id_seq w) (chat_history_id_seq w) (redis w)
    (cache_enabled w) v (background_tasks w) (stdout w) (clock w) (calls w).
Definition set_background_tasks (v : list (Z * string * string)) (w : World) : World :=
  mkWorld (documents w) (document_chunks w) (chat_history w) (documents_id_seq w)
    (document_chunks_id_seq w) (chat_history_id_seq w) (redis w)
    (cache_enabled w) (files w) v (stdout w) (clock w) (calls w).
Definition set_stdout (v : list string) (w : World) : World :=
  mkWorld (documents w) (document_chunks w) (chat_history w) (documents_id_seq w)
    (document_chunks_id_seq w) (chat_history_id_seq w) (redis w)
    (cache_enabled w) (files w) (background_tasks w) v (clock w) (calls w).
Definition set_clock (v : nat) (w : World) : World :=
  mkWorld (documents w) (document_chunks w) (chat_history w) (documents_id_seq w)
    (document_chunks_id_seq w) (chat_history_id_seq w) (redis w)
    (cache_enabled w) (files w) (background_tasks w) (stdout w) v (calls w).
Definition set_calls (v : list call) (w : World) : World :=
  mkWorld (documents w) (document_chunks w) (chat_history w) (documents_id_seq w)
    (document_chunks_id_seq w) (chat_history_id_seq w) (redis w)
    (cache_enabled w) (files w) (background_tasks w) (stdout w) (clock w) v.

(** [print(line)] *)
Definition print (line : string) : M unit :=
  modify (fun w => set_stdout (stdout w ++ [line]) w).

(** ** External collaborators *)

(** The document readers [extract_text] relies on.  Each takes the bytes
    of the file and may fail. *)
Class FileReaders : Type := {
  (** [PdfReader(path).pages], each page through [extract_text()] *)
  PdfReader_pages : list N -> result (list string);
  (** [DocxDocument(path).paragraphs], each through [.text] *)
  DocxDocument_paragraphs : list N -> result (list string);
  (** [openpyxl.load_workbook(path)]: the sheets in order, each with its
      name and its rows of cells; a cell is [None] or holds [str(cell)] *)
  load_workbook : list N -> result (list (string * list (list (option string))));
  (** [open(path, 'r', encoding='utf-8').read()] *)
  read_utf8 : list N -> result string
}.

(** The collaborators of [RAGPipeline]. *)
Class Capabilities : Type := {
  (** [OpenAIEmbeddings.embed_query] *)
  embed_query : string -> result vector;
  (** [OpenAIEmbeddings.embed_documents] *)
  embed_documents : list string -> result (list vector);
  (** [LLMChain.run(context=..., question=...)] *)
  chain_run : string -> string -> result string;
  (** pgvector's cosine distance operator [<=>] *)
  cosine_distance : vector -> vector -> Q;
  (** [hashlib.md5(data).hexdigest()] *)
  md5_hexdigest : list N -> string;
  (** [time.time()]: the value of the n-th reading of the clock *)
  time_time : nat -> Q
}.

(** ** [langchain.text_splitter.RecursiveCharacterTextSplitter]

    The splitter [DocumentProcessor.__init__] constructs, with the
    library's defaults for what the constructor call leaves out:
    separators [["\n\n"; "\n"; " "; ""]] taken literally, separators kept
    at the start of the piece that follows them, chunks stripped of
    surrounding white space, and [len] as length function.  The
    constructor refuses a [chunk_overlap] above [chunk_size]; a splitter
    therefore has [0 <= chunk_overlap <= chunk_size]. *)
Module RecursiveCharacterTextSplitter.

Record t : Type := mk {
  chunk_size : Z;
  chunk_overlap : Z
}.

Definition separators : list string := [Py.nl +:+ Py.nl; Py.nl; " "; ""].

(** [re.search(re.escape(sep), text)] finds a match *)
Fixpoint contains (sep text : string) : bool :=
  String.prefix sep text ||
  match text with
  | EmptyString => false
  | String _ text' => contains sep text'
  end.

(** The pieces of [text] between the leftmost, non-overlapping occurrences
    of a non-empty [sep]; [skip] counts the characters of an occurrence
    still to pass over. *)
Fixpoint pieces (sep : string) (skip : nat) (text : string) : list string :=
  match text with
  | EmptyString => [EmptyString]
  | String c text' =>
      match skip with
      | S k => pieces sep k text'
      | O =>
          if String.prefix sep text
          then EmptyString :: pieces sep (String.length sep - 1) text'
          else match pieces sep 0 text' with
               | [] => [String c EmptyString]
               | p :: ps => String c p :: ps
               end
      end
  end.

(** [list(text)] *)
Fixpoint chars (text : string) : list string :=
  match text with
  | EmptyString => []
  | String c text' => String c EmptyString :: chars text'
  end.

(** [_split_text_with_regex(text, separator, keep_separator=True)] *)
Definition _split_text_with_regex (text separator : string) : list string :=
  let splits :=
    if Py.is_empty separator then chars text
    else match pieces separator 0 text with
         | [] => []
         | p0 :: ps => p0 :: ((fun p => separator +:+ p) <$> ps)
         end in
  List.filter (fun s => negb (Py.is_empty s)) splits.

(** [_join_docs(docs, separator)] *)
Definition _join_docs (docs : list string) (separator : string) : option string :=
  let text := Py.strip (Py.join separator docs) in
  if Py.is_empty text then None else Some text.

(** the separator's share of the running total *)
Definition sep_share (separator_len : Z) (more_than : nat) (current_doc : list string) : Z :=
  if (more_than <? length current_doc)%nat then separator_len else 0.

(** The [while] loop of [_merge_splits]: drop pieces from the front of
    [current_doc] while the total exceeds the overlap, or the next piece
    would not fit.  With [0 <= chunk_overlap] the loop condition is false
    once [current_doc] is empty. *)
Fixpoint pop_front (self : t) (_len separator_len : Z)
    (current_doc : list string) (total : Z) : list string * Z :=
  match current_doc with
  | [] => ([], total)
  | d0 :: rest =>
      if (chunk_overlap self <? total)%Z
         || ((chunk_size self <? total + _len + sep_share separator_len 0 current_doc)%Z
             && (0 <? total)%Z)
      then pop_front self _len separator_len rest
             (total - (Py.len d0 + sep_share separator_len 1 current_doc))%Z
      else (current_doc, total)
  end.

(** one iteration of the [for d in splits] loop of [_merge_splits] on the
    state [(docs, current_doc, total)] *)
Definition merge_step (self : t) (separator : string)
    (st : list string * list string * Z) (d : string) : list string * list string * Z :=
  let '(docs, current_doc, total) := st in
  let separator_len := Py.len separator in
  let _len := Py.len d in
  let '(docs, current_doc, total) :=
    if (chunk_size self <? total + _len + sep_share separator_len 0 current_doc)%Z
    then
      if (0 <? length current_doc)%nat
      then
        let docs :=
          match _join_docs current_doc separator with
          | Some doc => docs ++ [doc]
          | None => docs
          end in
        let '(current_doc, total) :=
          pop_front self _len separator_len current_doc total in
        (docs, current_doc, total)
      else (docs, current_doc, total)
    else (docs, current_doc, total) in
  let current_doc := current_doc ++ [d] in
  (docs, current_doc, (total + _len + sep_share separator_len 1 current_doc)%Z).

(** [_merge_splits(splits, separator)] *)
Definition _merge_splits (self : t) (splits : list string) (separator : string) : list string :=
  let '(docs, current_doc, _) :=
    fold_left (merge_step self separator) splits ([], [], 0%Z) in
  match _join_docs current_doc separator with
  | Some doc => docs ++ [doc]
  | None => docs
  end.

(** The body of [_split_text] once the separator is chosen.  [recur] is the
    recursive call on the remaining separators, [None] when none remain.
    The state of the loop is [(final_chunks, _good_splits)]. *)
Definition split_with (self : t) (recur : option (string -> list string))
    (separator text : string) : list string :=
  let flush (final_chunks _good_splits : list string) :=
    match _good_splits with
    | [] => final_chunks
    | _ => final_chunks ++ _merge_splits self _good_splits ""
    end in
  let '(final_chunks, _good_splits) :=
    fold_left
      (fun '(final_chunks, _good_splits) s =>
         if (Py.len s <? chunk_size self)%Z
         then (final_chunks, _good_splits ++ [s])
         else
           let final_chunks := flush final_chunks _good_splits in
           match recur with
           | None => (final_chunks ++ [s], [])
           | Some split_rest => (final_chunks ++ split_rest s, [])
           end)
      (_split_text_with_regex text separator) ([], []) in
  flush final_chunks _good_splits.

(** [_split_text(text, separators)]: the first separator that is empty or
    occurs in [text] is used, the last one when there is none; pieces that
    are too long are split again with the separators after it. *)
Fixpoint _split_text (self : t) (separators : list string) (text : string) : list string :=
  match separators with
  | [] => []
  | _s :: new_separators =>
      if Py.is_empty _s then split_with self None _s text
      else if contains _s text then
        match new_separators with
        | [] => split_with self None _s text
        | _ => split_with self (Some (_split_text self new_separators)) _s text
        end
      else
        match new_separators with
        | [] => split_with self None _s text
        | _ => _split_text self new_separators text
        end
  end.

Definition split_text (self : t) (text : string) : list string :=
  _split_text self separators text.

(** the characters of the pieces of a document in the making *)
Definition total_len (docs : list string) : Z :=
  foldr (fun d n => (Py.len d + n)%Z) 0%Z docs.

(** a text that fits a chunk, and a piece that is merged with others *)
Definition bounded (self : t) (s : string) : Prop := (Py.len s <= chunk_size self)%Z.
Definition small (self : t) (s : string) : Prop := (Py.len s < chunk_size self)%Z.

End RecursiveCharacterTextSplitter.

(** ** [document_processor.py] *)
Module DocumentProcessor.

Record t : Type := mk {
  chunk_size : Z;
  chunk_overlap : Z
}.

(** [self.text_splitter], as [__init__] builds it *)
Definition text_splitter (self : t) : RecursiveCharacterTextSplitter.t :=
  RecursiveCharacterTextSplitter.mk (chunk_size self) (chunk_overlap self).

Definition metadata_t : Type := gmap string meta_value.

(** the bytes of the file at [file_path] *)
Definition read_file (file_path : string) : M (list N) := fun w =>
  match files w !! file_path with
  | Some data => (Ok data, w)
  | None => (Raise (Exception "FileNotFoundError" file_path), w)
  end.

Section Extract.
Context `{FileReaders}.

Definition _extract_from_pdf (file_path : string) : M (string * metadata_t) :=
  data ← read_file file_path;
  pages ← lift (PdfReader_pages data);
  let text := fold_left (fun text page => text +:+ page +:+ Py.nl +:+ Py.nl) pages "" in
  let metadata : metadata_t :=
    <["page_count" := MInt (Z.of_nat (length pages))]> (<["file_type" := MStr "pdf"]> ∅) in
  mret (Py.strip text, metadata).

Definition _extract_from_docx (file_path : string) : M (string * metadata_t) :=
  data ← read_file file_path;
  paragraphs ← lift (DocxDocument_paragraphs data);
  let text := Py.join (Py.nl +:+ Py.nl) paragraphs in
  let metadata : metadata_t :=
    <["paragraph_count" := MInt (Z.of_nat (length paragraphs))]>
      (<["file_type" := MStr "docx"]> ∅) in
  mret (Py.strip text, metadata).

Definition _extract_from_xlsx (file_path : string) : M (string * metadata_t) :=
  data ← read_file file_path;
  sheets ← lift (load_workbook data);
  let add_row (text : string) (row : list (option string)) : string :=
    let row_text := Py.join " | " (default "" <$> row) in
    if Py.is_empty (Py.strip row_text) then text else text +:+ row_text +:+ Py.nl in
  let add_sheet (text : string) (sheet : string * list (list (option string))) : string :=
    let text := text +:+ Py.nl +:+ Py.nl +:+ "=== Sheet: " +:+ sheet.1 +:+ " ==="
                  +:+ Py.nl +:+ Py.nl in
    fold_left add_row sheet.2 text in
  let text := fold_left add_sheet sheets "" in
  let metadata : metadata_t :=
    <["sheet_count" := MInt (Z.of_nat (length sheets))]> (<["file_type" := MStr "xlsx"]> ∅) in
  mret (Py.strip text, metadata).

Definition _extract_from_txt (file_path : string) : M (string * metadata_t) :=
  data ← read_file file_path;
  text ← lift (read_utf8 data);
  let metadata : metadata_t := <["file_type" := MStr "txt"]> ∅ in
  mret (Py.strip text, metadata).

Definition extract_text (file_path file_type : string) : M (string * metadata_t) :=
  if String.eqb file_type "pdf" then _extract_from_pdf file_path
  else if String.eqb file_type "docx" then _extract_from_docx file_path
  else if String.eqb file_type "xlsx" then _extract_from_xlsx file_path
  else if String.eqb file_type "txt" then _extract_from_txt file_path
  else raise (Exception "ValueError" ("Unsupported file type: " +:+ file_type)).

End Extract.

(** [chunk_text(text, metadata)]; [metadata] is [None] by default *)
Definition chunk_text (self : t) (text : string) (metadata : option metadata_t)
    : list ChunkDoc.t :=
  let chunks := RecursiveCharacterTextSplitter.split_text (text_splitter self) text in
  imap (fun i chunk => ChunkDoc.mk chunk (Z.of_nat i) (default ∅ metadata)) chunks.

Definition type_mapping : gmap string string :=
  list_to_map
    [(".pdf", "pdf"); (".docx", "docx"); (".doc", "docx");
     (".xlsx", "xlsx"); (".xls", "xlsx"); (".txt", "txt")].

Definition get_file_type (filename : string) : string :=
  let extension := Py.lower (Py.path_suffix filename) in
  default "unknown" (type_mapping !! extension).

End DocumentProcessor.

(** ** [rag_pipeline.py] *)
Module RAGPipeline.

(** the row of [document_chunks] with its distance to the query vector,
    when its similarity passes the [WHERE] clause; a row whose [embedding]
    is [NULL] has a [NULL] similarity and is not selected *)
Definition where_similar `{Capabilities} (query_embedding : vector)
    (similarity_threshold : Q) (row : DocumentChunk.t) : option (DocumentChunk.t * Q) :=
  match DocumentChunk.embedding row with
  | None => None
  | Some embedding =>
      let distance := cosine_distance embedding query_embedding in
      if Qlt_le_dec similarity_threshold (1 - distance) then Some (row, distance) else None
  end.

(** [ORDER BY embedding <=> query]: ascending distance *)
Definition by_distance : relation (DocumentChunk.t * Q) :=
  fun r1 r2 => (r1.2 <= r2.2)%Q.

#[export] Instance by_distance_dec : RelDecision by_distance.
Proof.
  intros r1 r2. unfold by_distance.
  destruct (Qlt_le_dec r2.2 r1.2) as [Hlt | Hle].
  - right. apply Qlt_not_le. exact Hlt.
  - left. exact Hle.
Defined.

(** what the loop over the fetched rows builds from one row: the selected
    columns (the embedding is not among them) and the similarity *)
Definition chunk_with_score (r : DocumentChunk.t * Q) : DocumentChunk.t * Q :=
  let '(row, distance) := r in
  (DocumentChunk.mk (DocumentChunk.id row) (DocumentChunk.document_id row)
     (DocumentChunk.chunk_index row) (DocumentChunk.content row) None
     (DocumentChunk.metadata row),
   1 - distance)%Q.


Section Pipeline.
Context `{Capabilities}.

(** [time.time()] *)
Definition time : M Q := fun w =>
  (Ok (time_time (clock w)), set_clock (S (clock w)) w).

Definition record_call (c : call) : M unit :=
  modify (fun w => set_calls (calls w ++ [c]) w).

Definition create_embedding (text : string) : M vector :=
  record_call (EmbedQuery text);;
  lift (embed_query text).

Definition create_embeddings_batch (texts : list string) : M (list vector) :=
  record_call (EmbedDocuments texts);;
  lift (embed_documents texts).

(** [vector_search(db, query_embedding, top_k, similarity_threshold)] on
    the rows [db] of [document_chunks].  The statement selects the rows
    whose similarity exceeds the threshold, orders them by distance and
    keeps the first [top_k]; the database refuses a negative [LIMIT]. *)
Definition vector_search (db : list DocumentChunk.t) (query_embedding : vector)
    (top_k : Z) (similarity_threshold : Q) : result (list (DocumentChunk.t * Q)) :=
  if (top_k <? 0)%Z then Raise (Exception "DataError" "LIMIT must not be negative")
  else
    let selected := omap (where_similar query_embedding similarity_threshold) db in
    let results := take (Z.to_nat top_k) (merge_sort by_distance selected) in
    Ok (chunk_with_score <$> results).

Definition content_preview (content : string) : string :=
  if (200 <? Py.len content)%Z then Py.take 200 content +:+ "..." else content.

(** what the loop of [retrieve_context] appends to [context_parts] and to
    [sources] for one search result *)
Definition context_part (r : DocumentChunk.t * Q) : string :=
  let '(chunk, score) := r in
  "[Document " +:+ pretty (DocumentChunk.document_id chunk) +:+ ", Section "
    +:+ pretty (DocumentChunk.chunk_index chunk) +:+ "]" +:+ Py.nl
    +:+ DocumentChunk.content chunk +:+ Py.nl.

Definition source_entry (r : DocumentChunk.t * Q) : Source.t :=
  let '(chunk, score) := r in
  Source.mk (DocumentChunk.document_id chunk) (DocumentChunk.chunk_index chunk)
    score (content_preview (DocumentChunk.content chunk)).

(** [retrieve_context(db, query, top_k)] *)
Definition retrieve_context (query : string) (top_k : Z) : M (string * list Source.t) :=
  query_embedding ← create_embedding query;
  w ← get_world;
  results ← lift (vector_search (document_chunks w) query_embedding top_k (7 # 10));
  let context_parts := context_part <$> results in
  let sources := source_entry <$> results in
  let context := Py.join (Py.nl +:+ Py.nl) context_parts in
  mret (context, sources).

(** [_get_cache_key(query)] *)
Definition _get_cache_key (query : string) : string :=
  let query_hash := md5_hexdigest (Py.encode (Py.strip (Py.lower query))) in
  "rag:query:" +:+ query_hash.

(** the cache check at the head of [generate_answer] finds nothing: when
    the cache is consulted, the query's key is absent *)
Definition cache_miss (query : string) (use_cache : bool) (w : World) : Prop :=
  use_cache && cache_enabled w = true -> redis w !! _get_cache_key query = None.

(** [redis_client.get(key)] *)
Definition redis_get (key : string) : M (option (json Bundle.t)) :=
  w ← get_world;
  mret (fst <$> redis w !! key).

(** [redis_client.setex(key, ttl, value)] *)
Definition redis_setex (key : string) (ttl : Z) (value : json Bundle.t) : M unit :=
  modify (fun w => set_redis (<[key := (value, ttl)]> (redis w)) w).

(** [redis_client.keys("rag:query:*")] *)
Definition redis_keys_rag_query : M (list string) :=
  w ← get_world;
  mret (List.filter (String.prefix "rag:query:") (elements (dom (redis w)))).

(** [redis_client.delete( *keys)] *)
Definition redis_delete (keys : list string) : M unit :=
  modify (fun w => set_redis (foldr delete (redis w) keys) w).

(** [db.add(chat_entry); db.commit()] *)
Definition add_chat_history (session_id query response : string)
    (sources : json (list Source.t)) (response_time : Q) : M unit :=
  modify (fun w =>
    let id := chat_history_id_seq w in
    set_chat_history_id_seq (id + 1)
      (set_chat_history
         (chat_history w ++ [ChatHistory.mk id session_id query response sources response_time])
         w)).

Definition not_found_answer : string :=
  "I couldn't find any relevant information in the knowledge base to answer your question. Please try rephrasing or check if the relevant documents have been uploaded.".

(** [generate_answer(db, query, session_id, use_cache)] *)
Definition generate_answer (query session_id : string) (use_cache : bool) : M Bundle.t :=
  start_time ← time;
  w ← get_world;
  cached_result ←
    (if use_cache && cache_enabled w then redis_get (_get_cache_key query) else mret None);
  match cached_result with
  | Some cached_result =>
      let result := json_loads cached_result in
      now ← time;
      mret (Bundle.mk (Bundle.answer result) (Bundle.sources result) (now - start_time) true)
  | None =>
      '(context, sources) ← retrieve_context query 5;
      if Py.is_empty context then
        now ← time;
        mret (Bundle.mk not_found_answer [] (now - start_time) false)
      else
        record_call (ChainRun context query);;
        answer ← lift (chain_run context query);
        now ← time;
        let response_time := (now - start_time)%Q in
        let result := Bundle.mk (Py.strip answer) sources response_time false in
        add_chat_history session_id query (Py.strip answer) (json_dumps sources) response_time;;
        w ← get_world;
        (if cache_enabled w
         then redis_setex (_get_cache_key query) 3600 (json_dumps result)
         else mret tt);;
        mret result
  end.

(** [clear_cache()] *)
Definition clear_cache : M unit :=
  w ← get_world;
  if cache_enabled w then
    keys ← redis_keys_rag_query;
    match keys with
    | [] => mret tt
    | _ => redis_delete keys
    end
  else mret tt.

End Pipeline.
End RAGPipeline.

(** ** [main.py] *)
Module Main.

Definition UPLOAD_DIR : string := "/tmp/documind_uploads".

(** [document_processor = DocumentProcessor()] *)
Definition document_processor : DocumentProcessor.t := DocumentProcessor.mk 1000 200.

Module QueryRequest.
Record t : Type := mk {
  query : string;
  session_id : string;
  top_k : option Z
}.
End QueryRequest.

Module UploadFile.
Record t : Type := mk {
  filename : string;
  file : list N
}.
End UploadFile.

Module DocumentResponse.
Record t : Type := mk {
  id : Z;
  filename : string;
  file_type : string;
  file_size : Z;
  page_count : option Z;
  processed : bool
}.
End DocumentResponse.

(** [dir / name] of [pathlib], as a string: an absolute [name] replaces
    [dir]; empty and [.] components are dropped *)
Definition path_div (dir name : string) : string :=
  let parts := List.filter Py.is_component (Py.split "/" name) in
  if String.prefix "/" name then "/" +:+ Py.join "/" parts
  else Py.join "/" (dir :: parts).

(** [db.query(Document).filter(Document.id == document_id).first()] *)
Definition query_document (document_id : Z) : M (option Document.t) :=
  w ← get_world;
  mret (List.find (fun d => (Document.id d =? document_id)%Z) (documents w)).

(** an attribute update of the document row, committed *)
Definition update_document (document_id : Z) (f : Document.t -> Document.t) : M unit :=
  modify (fun w =>
    set_documents
      ((fun d => if (Document.id d =? document_id)%Z then f d else d) <$> documents w) w).

(** [db.add(doc); db.commit(); db.refresh(doc)] *)
Definition add_document (filename file_type content : string) (file_size : Z)
    (processed : bool) : M Document.t :=
  w ← get_world;
  let doc := Document.mk (documents_id_seq w) filename file_type content file_size
               None processed in
  modify (fun w =>
    set_documents_id_seq (documents_id_seq w + 1) (set_documents (documents w ++ [doc]) w));;
  mret doc.

(** the [INSERT] of the pending chunk records at commit, with ids from
    the sequence *)
Definition insert_chunks (records : list (Z -> DocumentChunk.t)) : M unit :=
  modify (fun w =>
    let seq0 := document_chunks_id_seq w in
    set_document_chunks_id_seq (seq0 + Z.of_nat (length records))
      (set_document_chunks
         (document_chunks w ++ imap (fun i r => r (seq0 + Z.of_nat i)%Z) records) w)).

(** [os.remove(file_path)] *)
Definition os_remove (file_path : string) : M unit := fun w =>
  match files w !! file_path with
  | Some _ => (Ok tt, set_files (delete file_path (files w)) w)
  | None => (Raise (Exception "FileNotFoundError" file_path), w)
  end.

(** truth value of a metadata entry, and Python's [a or b] on the results
    of two [metadata.get] calls *)
Definition truthy (v : meta_value) : bool :=
  match v with
  | MInt n => negb (n =? 0)%Z
  | MStr s => negb (Py.is_empty s)
  end.

Definition py_or (a b : option meta_value) : option meta_value :=
  match a with
  | Some v => if truthy v then a else b
  | None => b
  end.

Definition as_int (v : option meta_value) : option Z :=
  match v with
  | Some (MInt n) => Some n
  | _ => None
  end.

(** the [DocumentResponse] built from a row of [documents] *)
Definition document_response (doc : Document.t) : DocumentResponse.t :=
  DocumentResponse.mk (Document.id doc) (Document.filename doc) (Document.file_type doc)
    (Document.file_size doc) (Document.page_count doc) (Document.processed doc).


(** [get_document(document_id, db)] *)
Definition get_document (document_id : Z) : M DocumentResponse.t :=
  doc ← query_document document_id;
  match doc with
  | None => raise (HTTPException 404 "Document not found")
  | Some doc => mret (document_response doc)
  end.

(** document ids are unique and below the next value of their sequence *)
Definition unique_ids (w : World) : Prop :=
  NoDup (Document.id <$> documents w)
  /\ forall d, d ∈ documents w -> (Document.id d < documents_id_seq w)%Z.

(** every chunk belongs to a document of the table *)
Definition no_orphans (w : World) : Prop :=
  forall c, c ∈ document_chunks w ->
    exists d, d ∈ documents w /\ Document.id d = DocumentChunk.document_id c.

(** the row [process_document_background] leaves for a processed document *)
Definition processed_row (text : string) (metadata : DocumentProcessor.metadata_t)
    (d : Document.t) : Document.t :=
  Document.mk (Document.id d) (Document.filename d) (Document.file_type d)
    (Py.take 1000 text) (Document.file_size d)
    (as_int (py_or (metadata !! "page_count") (metadata !! "paragraph_count"))) true.

(** [doc.processed = False] *)
Definition unprocessed (d : Document.t) : Document.t :=
  Document.mk (Document.id d) (Document.filename d) (Document.file_type d)
    (Document.content d) (Document.file_size d) (Document.page_count d) false.

(** [f"Error processing document {doc_id}: {e}"] *)
Definition error_line (doc_id : Z) (e : exn) : string :=
  "Error processing document " +:+ pretty doc_id +:+ ": " +:+ exn_str e.

Section Handlers.
Context `{FileReaders} `{Capabilities}.

(** [upload_document(background_tasks, file, db)] *)
Definition upload_document (file : UploadFile.t) : M DocumentResponse.t :=
  try_except
    (let file_type := DocumentProcessor.get_file_type (UploadFile.filename file) in
     if String.eqb file_type "unknown"
     then raise (HTTPException 400 "Unsupported file type")
     else
       let file_path := path_div UPLOAD_DIR (UploadFile.filename file) in
       modify (fun w => set_files (<[file_path := UploadFile.file file]> (files w)) w);;
       let file_size := Z.of_nat (length (UploadFile.file file)) in
       doc ← add_document (UploadFile.filename file) file_type "" file_size false;
       modify (fun w =>
         set_background_tasks
           (background_tasks w ++ [(Document.id doc, file_path, file_type)]) w);;
       mret (DocumentResponse.mk (Document.id doc) (Document.filename doc)
               (Document.file_type doc) (Document.file_size doc)
               (Document.page_count doc) (Document.processed doc)))
    (fun e => raise (HTTPException 500 (exn_str e))).

(** the [try] block of [process_document_background] *)
Definition process_document_try (doc_id : Z) (file_path file_type : string) : M unit :=
  '(text, metadata) ← DocumentProcessor.extract_text file_path file_type;
  let chunks := DocumentProcessor.chunk_text document_processor text (Some metadata) in
  let chunk_texts := ChunkDoc.content <$> chunks in
  embeddings ← RAGPipeline.create_embeddings_batch chunk_texts;
  let chunk_records :=
    imap (fun i '(chunk, embedding) => fun id =>
            DocumentChunk.mk id doc_id (Z.of_nat i) (ChunkDoc.content chunk)
              (Some embedding) (ChunkDoc.metadata chunk))
         (zip chunks embeddings) in
  doc ← query_document doc_id;
  match doc with
  | None =>
      raise (Exception "AttributeError" "'NoneType' object has no attribute 'content'")
  | Some _ =>
      insert_chunks chunk_records;;
      update_document doc_id (fun d =>
        Document.mk (Document.id d) (Document.filename d) (Document.file_type d)
          (Py.take 1000 text) (Document.file_size d)
          (as_int (py_or (metadata !! "page_count") (metadata !! "paragraph_count")))
          true);;
      os_remove file_path
  end.

(** the [except Exception as e] block of [process_document_background] *)
Definition process_document_except (doc_id : Z) (e : exn) : M unit :=
  print (error_line doc_id e);;
  doc ← query_document doc_id;
  match doc with
  | Some _ => update_document doc_id unprocessed
  | None => mret tt
  end.

(** [process_document_background(doc_id, file_path, file_type)] *)
Definition process_document_background (doc_id : Z) (file_path file_type : string)
    : M unit :=
  try_except (process_document_try doc_id file_path file_type)
    (process_document_except doc_id).

(** [query_documents(request, db)] *)
Definition query_documents (request : QueryRequest.t) : M Bundle.t :=
  try_except
    (RAGPipeline.generate_answer (QueryRequest.query request)
       (QueryRequest.session_id request) true)
    (fun e => raise (HTTPException 500 (exn_str e))).

(** [delete_document(document_id, db)] *)
Definition delete_document (document_id : Z) : M string :=
  doc ← query_document document_id;
  match doc with
  | None => raise (HTTPException 404 "Document not found")
  | Some doc =>
      modify (fun w =>
        set_document_chunks
          (List.filter
             (fun c => negb (DocumentChunk.document_id c =? document_id)%Z)
             (document_chunks w)) w);;
      modify (fun w =>
        set_documents
          (List.filter (fun d => negb (Document.id d =? Document.id doc)%Z) (documents w))
          w);;
      RAGPipeline.clear_cache;;
      mret "Document deleted successfully"
  end.

End Handlers.
End Main.

(** ** Test doubles

    Stand-ins for the external collaborators, used to run the handlers on
    concrete inputs. *)
Module TestDoubles.

Definition dot (a b : vector) : Q :=
  fold_right Qplus 0%Q (zip_with Qmult a b).

(** a capability set: every text embeds to the unit vector [[1; 0]]
    (the empty text and the empty batch are refused), the distance is the
    cosine distance of unit vectors, the completion gives a fixed answer,
    the digest spells the bytes out and the clock advances by a hundredth
    per reading *)
#[export] Instance capabilities : Capabilities := {|
  embed_query text :=
    if Py.is_empty text then Raise (Exception "BadRequestError" "empty input")
    else Ok [1; 0]%Q;
  embed_documents texts :=
    match texts with
    | [] => Raise (Exception "BadRequestError" "empty input")
    | _ => Ok ((fun _ => [1; 0]%Q) <$> texts)
    end;
  chain_run context question := Ok " It is a platform. ";
  cosine_distance a b := (1 - dot a b)%Q;
  md5_hexdigest data := Py.join "." (pretty <$> data);
  time_time n := (Z.of_nat n # 100)%Q
|}.

(** readers that take the bytes of a file as its text: one page, one
    paragraph, one single-cell sheet *)
Definition text_of_bytes (data : list N) : string :=
  fold_right (fun b s => String (ascii_of_N b) s) "" data.

#[export] Instance file_readers : FileReaders := {|
  PdfReader_pages data := Ok [text_of_bytes data];
  DocxDocument_paragraphs data := Ok [text_of_bytes data];
  load_workbook data := Ok [("Sheet1", [[Some (text_of_bytes data)]])];
  read_utf8 data := Ok (text_of_bytes data)
|}.

Definition chunk (id document_id chunk_index : Z) (content : string) (embedding : vector)
    : DocumentChunk.t :=
  DocumentChunk.mk id document_id chunk_index content (Some embedding) ∅.

(** an index with nothing in it, caching enabled *)
Definition empty_world : World :=
  mkWorld [] [] [] 1 1 1 ∅ true ∅ [] [] 0 [].

(** one document with three chunks, two of them close to [[1; 0]] *)
Definition world : World :=
  mkWorld
    [Document.mk 1 "guide.txt" "txt" "DocuMind is a platform." 23 None true]
    [chunk 1 1 0 "DocuMind is a platform." [1; 0]%Q;
     chunk 2 1 1 "It answers questions." [4 # 5; 3 # 5]%Q;
     chunk 3 1 2 "Unrelated." [0; 1]%Q]
    [] 2 4 1 ∅ true ∅ [] [] 0 [].

Definition question : string := "What is DocuMind?".

(** what the search finds in [world] for the embedding of a question *)
Definition world_results : list (DocumentChunk.t * Q) :=
  [(DocumentChunk.mk 1 1 0 "DocuMind is a platform." None ∅, 1%Q);
   (DocumentChunk.mk 2 1 1 "It answers questions." None ∅, (20 # 25)%Q)].

(** [world] after the question has been answered once *)
Definition answered_world : World :=
  (RAGPipeline.generate_answer question "s" true world).2.


(** the empty index after the upload of an empty text file *)
Definition uploaded_world : World :=
  (Main.upload_document (Main.UploadFile.mk "empty.txt" []) empty_world).2.

(** the empty index after the upload of a two-byte text file *)
Definition notes_world : World :=
  (Main.upload_document (Main.UploadFile.mk "notes.txt" [104; 105]%N) empty_world).2.

End TestDoubles.

(** ** Proof automation *)

(** a fact about every code point of the range, checked on each *)
Ltac each_char c := destruct c as [[] [] [] [] [] [] [] []]; vm_compute; reflexivity.

(** unfolding of the monad and of the primitive effects *)
Ltac run :=
  unfold mbind, M_bind, mret, M_ret, RAGPipeline.time, get_world, modify, lift, raise,
    try_except, RAGPipeline.record_call, RAGPipeline.redis_get, RAGPipeline.redis_setex,
    RAGPipeline.add_chat_history, print;
  simpl.

(** * Properties *)

(** ** Python strings *)
Module PyFacts.
Import Py.

Lemma char_lower_idem (c : ascii) : char_lower (char_lower c) = char_lower c.
Proof. each_char c. Qed.

Lemma isspace_char_lower (c : ascii) : isspace (char_lower c) = isspace c.
Proof. each_char c. Qed.

Lemma char_lower_slash (c : ascii) : Ascii.eqb (char_lower c) "/" = Ascii.eqb c "/".
Proof. each_char c. Qed.

Lemma char_lower_dot (c : ascii) : Ascii.eqb (char_lower c) "." = Ascii.eqb c ".".
Proof. each_char c. Qed.

Lemma lower_idem (s : string) : lower (lower s) = lower s.
Proof. induction s as [| c s IH]; simpl; [reflexivity |]. by rewrite char_lower_idem, IH. Qed.

Lemma is_empty_lower (s : string) : is_empty (lower s) = is_empty s.
Proof. by destruct s. Qed.

Lemma is_empty_true (s : string) : is_empty s = true -> s = "".
Proof. by destruct s. Qed.

Lemma length_lower (s : string) : String.length (lower s) = String.length s.
Proof. induction s as [| c s IH]; simpl; [reflexivity |]. by rewrite IH. Qed.

Lemma len_lower (s : string) : len (lower s) = len s.
Proof. unfold len. by rewrite length_lower. Qed.

Lemma lower_app (s t : string) : lower (s +:+ t) = lower s +:+ lower t.
Proof. induction s as [| c s IH]; simpl; [reflexivity |]. by rewrite IH. Qed.

Lemma drop_lower (n : nat) (s : string) : drop n (lower s) = lower (drop n s).
Proof.
  revert s. induction n as [| n IH]; intros s; [reflexivity |].
  destruct s as [| c s]; simpl; [reflexivity | apply IH].
Qed.

Lemma lstrip_lower (s : string) : lstrip (lower s) = lower (lstrip s).
Proof.
  induction s as [| c s IH]; simpl; [reflexivity |].
  rewrite isspace_char_lower. destruct (isspace c); [exact IH | reflexivity].
Qed.

Lemma rstrip_lower (s : string) : rstrip (lower s) = lower (rstrip s).
Proof.
  induction s as [| c s IH]; simpl; [reflexivity |].
  rewrite IH, is_empty_lower, isspace_char_lower.
  by destruct (is_empty (rstrip s) && isspace c).
Qed.

Lemma strip_lower (s : string) : strip (lower s) = lower (strip s).
Proof. unfold strip. by rewrite lstrip_lower, rstrip_lower. Qed.

Lemma rstrip_idem (s : string) : rstrip (rstrip s) = rstrip s.
Proof.
  induction s as [| c s IH]; simpl; [reflexivity |].
  destruct (is_empty (rstrip s) && isspace c) eqn:E; simpl; [reflexivity |].
  by rewrite IH, E.
Qed.

(** what [lstrip] leaves is empty or starts with a character that is not
    white space *)
Lemma lstrip_head (s : string) :
  lstrip s = "" \/ exists c t, lstrip s = String c t /\ isspace c = false.
Proof.
  induction s as [| c s IH]; simpl; [by left |].
  destruct (isspace c) eqn:E; [exact IH |]. right. by exists c, s.
Qed.

Lemma rstrip_cons (c : ascii) (t : string) :
  isspace c = false -> rstrip (String c t) = String c (rstrip t).
Proof. intros Hc. simpl. by rewrite Hc, andb_false_r. Qed.

Lemma lstrip_cons (c : ascii) (t : string) :
  isspace c = false -> lstrip (String c t) = String c t.
Proof. intros Hc. simpl. by rewrite Hc. Qed.

Lemma strip_idem (s : string) : strip (strip s) = strip s.
Proof.
  unfold strip. destruct (lstrip_head s) as [-> | (c & t & -> & Hc)]; [reflexivity |].
  rewrite (rstrip_cons c t Hc), (lstrip_cons c _ Hc), (rstrip_cons c _ Hc).
  by rewrite rstrip_idem.
Qed.

(** the normal form of a query: lower-casing then stripping, as
    [_get_cache_key] does, absorbs a previous strip and lower-casing *)
Lemma normalise_absorbs (s : string) : strip (lower (lower (strip s))) = strip (lower s).
Proof. by rewrite lower_idem, <- strip_lower, strip_idem. Qed.

Lemma split_lower (s : string) : split "/" (lower s) = lower <$> split "/" s.
Proof.
  induction s as [| c s IH]; simpl; [reflexivity |].
  rewrite char_lower_slash, IH.
  destruct (Ascii.eqb c "/"); [reflexivity |]. by destruct (split "/" s).
Qed.

Lemma is_component_lower (x : string) : is_component (lower x) = is_component x.
Proof.
  destruct x as [| c x]; [reflexivity |].
  unfold is_component. simpl. rewrite char_lower_dot.
  by destruct x.
Qed.

Lemma filter_is_component_lower (l : list string) :
  List.filter is_component (lower <$> l) = lower <$> List.filter is_component l.
Proof.
  induction l as [| x l IH]; [reflexivity |].
  rewrite fmap_cons. simpl. rewrite is_component_lower, IH.
  by destruct (is_component x).
Qed.

Lemma last_lower (l : list string) : List.last (lower <$> l) "" = lower (List.last l "").
Proof.
  induction l as [| x l IH]; [reflexivity |].
  destruct l as [| y l]; [reflexivity |]. exact IH.
Qed.

Lemma path_name_lower (p : string) : path_name (lower p) = lower (path_name p).
Proof. unfold path_name. by rewrite split_lower, filter_is_component_lower, last_lower. Qed.

Lemma rfind_from_lower (i : Z) (s : string) : rfind_from "." i (lower s) = rfind_from "." i s.
Proof.
  revert i. induction s as [| c s IH]; intros i; simpl; [reflexivity |].
  by rewrite IH, char_lower_dot.
Qed.

Lemma path_suffix_lower (p : string) : path_suffix (lower p) = lower (path_suffix p).
Proof.
  unfold path_suffix, rfind. rewrite path_name_lower, rfind_from_lower, len_lower, drop_lower.
  by destruct (_ && _).
Qed.

End PyFacts.

(** ** Similarity search *)
Module SearchFacts.
Import RAGPipeline.

#[export] Instance by_distance_total : Total by_distance.
Proof.
  intros r1 r2. unfold by_distance.
  destruct (Qlt_le_dec r2.2 r1.2) as [Hlt | Hle]; [right | left]; [| exact Hle].
  apply Qlt_le_weak. exact Hlt.
Qed.

#[export] Instance by_distance_trans : Transitive by_distance.
Proof. intros r1 r2 r3. unfold by_distance. apply Qle_trans. Qed.



Section Search.
Context `{Capabilities}.





End Search.
End SearchFacts.

(** ** The query cache and the orchestrator *)
Module PipelineFacts.
Import RAGPipeline.

Section Pipeline.
Context `{Capabilities}.

(** C5.  The cache key of a query is the cache key of its stripped and
    lower-cased form: queries that differ only by letter case or by
    surrounding white space address the same cache entry. *)
Theorem cache_key_normalised (query : string) :
  _get_cache_key query = _get_cache_key (Py.lower (Py.strip query)).
Proof. unfold _get_cache_key. by rewrite PyFacts.normalise_absorbs. Qed.

(** two queries with the same normal form share their key *)
Lemma cache_key_same_entry (q1 q2 : string) :
  Py.lower (Py.strip q1) = Py.lower (Py.strip q2) -> _get_cache_key q1 = _get_cache_key q2.
Proof.
  intros Heq. unfold _get_cache_key.
  rewrite <- (PyFacts.normalise_absorbs q1), <- (PyFacts.normalise_absorbs q2). by rewrite Heq.
Qed.

(** the search over an empty index *)
Lemma vector_search_empty_index (query_embedding : vector) (top_k : Z) (thr : Q) :
  (0 <= top_k)%Z -> vector_search [] query_embedding top_k thr = Ok [].
Proof.
  intros Hk. unfold vector_search. destruct (Z.ltb_spec top_k 0); [lia |].
  simpl. by destruct (Z.to_nat top_k).
Qed.

(** a context assembled from at least one result is not empty *)
Lemma context_not_empty (results : list (DocumentChunk.t * Q)) :
  results <> [] -> Py.is_empty (Py.join (Py.nl +:+ Py.nl) (context_part <$> results)) = false.
Proof.
  destruct results as [| [chunk score] rest]; [done |]. intros _.
  rewrite fmap_cons. by destruct (context_part <$> rest).
Qed.

(** [retrieve_context] once the embedding and the search have returned *)
Lemma retrieve_context_ok (query : string) (top_k : Z) (w : World) (e : vector)
    (results : list (DocumentChunk.t * Q)) :
  embed_query query = Ok e ->
  vector_search (document_chunks w) e top_k (7 # 10) = Ok results ->
  retrieve_context query top_k w =
    (Ok (Py.join (Py.nl +:+ Py.nl) (context_part <$> results), source_entry <$> results),
     set_calls (calls w ++ [EmbedQuery query]) w).
Proof.
  intros He Hs. unfold retrieve_context, create_embedding. run.
  rewrite He. simpl. by rewrite Hs.
Qed.

(** C4.  On a cache hit [generate_answer] returns the stored bundle with
    its [cached] flag set and its [response_time] replaced by the time
    between the two clock readings around the lookup; nothing but the
    clock is touched, so no embedding, search or completion contributes
    to that time. *)
Theorem generate_answer_cache_hit (query session_id : string) (w : World)
    (stored : json Bundle.t) (ttl : Z) :
  cache_enabled w = true ->
  redis w !! _get_cache_key query = Some (stored, ttl) ->
  generate_answer query session_id true w =
    (Ok (Bundle.mk (Bundle.answer (json_loads stored)) (Bundle.sources (json_loads stored))
           (time_time (S (clock w)) - time_time (clock w)) true),
     set_clock (S (S (clock w))) w).
Proof.
  intros Hen Hget. unfold generate_answer. run.
  rewrite Hen. simpl. by rewrite Hget.
Qed.

(** C2.  When the cache check misses and the search returns no chunk,
    [generate_answer] returns the fixed fallback answer with no sources
    and [cached = false]; the only remote call is the embedding of the
    query (no completion call), and neither the cache nor the history is
    written. *)
Theorem generate_answer_no_context (query session_id : string) (use_cache : bool)
    (w : World) (e : vector) :
  cache_miss query use_cache w ->
  embed_query query = Ok e ->
  vector_search (document_chunks w) e 5 (7 # 10) = Ok [] ->
  exists w',
    generate_answer query session_id use_cache w =
      (Ok (Bundle.mk not_found_answer []
             (time_time (S (clock w)) - time_time (clock w)) false), w')
    /\ calls w' = calls w ++ [EmbedQuery query]
    /\ redis w' = redis w
    /\ chat_history w' = chat_history w.
Proof.
  intros Hmiss He Hs. unfold generate_answer.
  pose proof (retrieve_context_ok query 5 (set_clock (S (clock w)) w) e [] He Hs) as Hr.
  unfold cache_miss in Hmiss.
  run. destruct (use_cache && cache_enabled w) eqn:Hc; simpl.
  - rewrite (Hmiss eq_refl). simpl. rewrite Hr. simpl. eauto.
  - rewrite Hr. simpl. eauto.
Qed.


End Pipeline.
End PipelineFacts.

(** ** The HTTP handlers and the background worker *)
Module MainFacts.
Import RAGPipeline Main.
Import PipelineFacts.

(** deleting a list of keys removes exactly these *)
Lemma lookup_foldr_delete {A : Type} (m : gmap string A) (keys : list string) (k : string) :
  foldr delete m keys !! k = if decide (k ∈ keys) then None else m !! k.
Proof.
  induction keys as [| k' keys IH].
  - simpl. destruct (decide (k ∈ [])) as [Hin | _]; [| done]. by apply elem_of_nil in Hin.
  - cbn [foldr]. rewrite lookup_delete, IH.
    destruct (decide (k' = k)) as [-> | Hne].
    + destruct (decide (k ∈ k :: keys)) as [_ | Hnin]; [done |].
      exfalso. apply Hnin, list_elem_of_here.
    + destruct (decide (k ∈ keys)) as [Hin | Hnin];
        destruct (decide (k ∈ k' :: keys)) as [Hin' | Hnin']; try done.
      * exfalso. by apply Hnin', list_elem_of_further.
      * exfalso. apply elem_of_cons in Hin' as [-> | Hin']; done.
Qed.

Section Handlers.
Context `{FileReaders} `{Capabilities}.

(** the store after [clear_cache] on an enabled cache *)
Lemma clear_cache_enabled (w : World) :
  cache_enabled w = true ->
  clear_cache w =
    (Ok tt,
     set_redis
       (foldr delete (redis w)
          (List.filter (String.prefix "rag:query:") (elements (dom (redis w))))) w).
Proof.
  intros Hen. unfold clear_cache, redis_keys_rag_query, redis_delete. run. rewrite Hen.
  destruct (List.filter _ _) eqn:E; simpl; [| done].
  by destruct w.
Qed.

Lemma clear_cache_disabled (w : World) :
  cache_enabled w = false -> clear_cache w = (Ok tt, w).
Proof. intros Hen. unfold clear_cache. run. by rewrite Hen. Qed.


(** with caching disabled, [delete_document] leaves the store alone *)
Lemma delete_document_cache_disabled (w w' : World) (document_id : Z) (msg : string) :
  cache_enabled w = false ->
  delete_document document_id w = (Ok msg, w') -> redis w' = redis w.
Proof.
  intros Hen. unfold delete_document, query_document. run.
  destruct (List.find _ _); [| done]. simpl.
  rewrite clear_cache_disabled by done. simpl. by intros [= _ <-].
Qed.

(** [query_documents] never reads the request's [top_k] *)
Lemma query_documents_top_k_unused (query session_id : string) (top_k top_k' : option Z) :
  query_documents (QueryRequest.mk query session_id top_k) =
  query_documents (QueryRequest.mk query session_id top_k').
Proof. reflexivity. Qed.

End Handlers.

(** C7 fails on the code: a request with [top_k = 1] against an index
    with two chunks above the similarity floor is answered with two
    sources. *)
Theorem query_documents_ignores_top_k :
  match fst (@query_documents TestDoubles.capabilities
               (QueryRequest.mk "What is DocuMind?" "s" (Some 1%Z)) TestDoubles.world) with
  | Ok bundle => length (Bundle.sources bundle) = 2%nat
  | Raise _ => False
  end.
Proof. vm_compute. reflexivity. Qed.

End MainFacts.

(** ** The background worker *)
Module WorkerFacts.
Import RAGPipeline Main.
Import PipelineFacts.

Section Worker.
Context `{FileReaders} `{Capabilities}.

Lemma read_file_world (file_path : string) (w w1 : World) (r : result (list N)) :
  DocumentProcessor.read_file file_path w = (r, w1) -> w1 = w.
Proof.
  unfold DocumentProcessor.read_file. destruct (files w !! file_path); by intros [= _ <-].
Qed.

(** extraction reads the file and nothing else: the state is as before *)
Lemma extract_text_world (file_path file_type : string) (w w1 : World)
    (r : result (string * DocumentProcessor.metadata_t)) :
  DocumentProcessor.extract_text file_path file_type w = (r, w1) -> w1 = w.
Proof.
  unfold DocumentProcessor.extract_text, DocumentProcessor._extract_from_pdf,
    DocumentProcessor._extract_from_docx, DocumentProcessor._extract_from_xlsx,
    DocumentProcessor._extract_from_txt, DocumentProcessor.read_file.
  run.
  repeat (match goal with |- context [if ?b then _ else _] => destruct b end);
    try (by intros [= _ <-]);
    destruct (files w !! file_path); try (by intros [= _ <-]);
    match goal with |- context [match ?r with Ok _ => _ | Raise _ => _ end] =>
      destruct r end; by intros [= _ <-].
Qed.

(** the [except] block returns normally: it prints the failure and clears
    the [processed] flag of the document's row *)
Lemma process_document_except_ok (doc_id : Z) (e : exn) (w : World) :
  process_document_except doc_id e w =
    (Ok tt,
     set_documents
       ((fun d => if (Document.id d =? doc_id)%Z then unprocessed d else d) <$> documents w)
       (set_stdout (stdout w ++ [error_line doc_id e]) w)).
Proof.
  unfold process_document_except, query_document, update_document. run.
  destruct (List.find _ (documents w)) eqn:Hfind; simpl; [done |].
  f_equal. destruct w; unfold set_documents, set_stdout; simpl. f_equal.
  clear -Hfind. simpl in Hfind. induction documents0 as [| d l IH]; [done |].
  simpl in Hfind. rewrite fmap_cons.
  destruct (Document.id d =? doc_id)%Z; [done |]. by rewrite <- IH.
Qed.

(** no failure leaves the worker: whatever the [try] block does,
    [process_document_background] returns *)
Lemma process_document_background_returns (doc_id : Z) (file_path file_type : string)
    (w : World) :
  exists w', process_document_background doc_id file_path file_type w = (Ok tt, w').
Proof.
  unfold process_document_background, try_except.
  destruct (process_document_try doc_id file_path file_type w) as [[[] | e] w1]; [eauto |].
  rewrite process_document_except_ok. eauto.
Qed.

(** C9.  When the extraction of the document raises, or the embedding of
    its chunks raises (chunking itself is a total function), the worker
    returns normally: the exception goes no further, the failure is
    printed, the document's row has [processed = false], the rows of the
    other documents and the chunk table are as before. *)
Theorem worker_recovers (w : World) (doc_id : Z) (file_path file_type : string) (e : exn) :
  (exists w1, DocumentProcessor.extract_text file_path file_type w = (Raise e, w1))
  \/ (exists text metadata w1,
        DocumentProcessor.extract_text file_path file_type w = (Ok (text, metadata), w1)
        /\ embed_documents
             (ChunkDoc.content <$>
                DocumentProcessor.chunk_text document_processor text (Some metadata))
           = Raise e) ->
  exists w',
    process_document_background doc_id file_path file_type w = (Ok tt, w')
    /\ stdout w' = stdout w ++ [error_line doc_id e]
    /\ documents w' =
         (fun d => if (Document.id d =? doc_id)%Z then unprocessed d else d) <$> documents w
    /\ (forall d, d ∈ documents w' -> Document.id d = doc_id -> Document.processed d = false)
    /\ (forall d, d ∈ documents w -> Document.id d <> doc_id -> d ∈ documents w')
    /\ document_chunks w' = document_chunks w.
Proof.
  intros Hfail.
  assert (exists w1, process_document_try doc_id file_path file_type w = (Raise e, w1)
            /\ stdout w1 = stdout w /\ documents w1 = documents w
            /\ document_chunks w1 = document_chunks w) as (w1 & Htry & Hout & Hdocs & Hchunks).
  { destruct Hfail as [(w1 & Hx) | (text & metadata & w1 & Hx & Hemb)];
      pose proof (extract_text_world _ _ _ _ _ Hx) as ->.
    - exists w. unfold process_document_try. run. by rewrite Hx.
    - eexists. unfold process_document_try, create_embeddings_batch. run.
      rewrite Hx. simpl. rewrite Hemb. simpl. done. }
  unfold process_document_background, try_except. rewrite Htry.
  rewrite process_document_except_ok.
  eexists. split; [reflexivity |]. simpl. rewrite Hout, Hdocs, Hchunks.
  split; [done |]. split; [done |]. split; [| split; [| done]].
  - intros d Hd Hid. apply list_elem_of_fmap in Hd as (d0 & -> & _).
    destruct (Document.id d0 =? doc_id)%Z eqn:E; [done |]. lia.
  - intros d Hd Hid. apply list_elem_of_fmap. exists d. split; [| done].
    destruct (Z.eqb_spec (Document.id d) doc_id); [done | done].
Qed.

End Worker.
End WorkerFacts.

(** ** File types and the upload handler *)
Module UploadFacts.
Import Main.
Import PipelineFacts.

Example get_file_type_examples :
  DocumentProcessor.get_file_type "Report.PDF" = "pdf"
  /\ DocumentProcessor.get_file_type "minutes.Doc" = "docx"
  /\ DocumentProcessor.get_file_type "uploads/2024/budget.XLS" = "xlsx"
  /\ DocumentProcessor.get_file_type "archive.tar.gz" = "unknown"
  /\ DocumentProcessor.get_file_type ".txt" = "unknown"
  /\ DocumentProcessor.get_file_type "README" = "unknown".
Proof. repeat split; vm_compute; reflexivity. Qed.

(** the file type depends on the file name up to letter case only *)
Lemma get_file_type_lower (filename : string) :
  DocumentProcessor.get_file_type (Py.lower filename) = DocumentProcessor.get_file_type filename.
Proof.
  unfold DocumentProcessor.get_file_type.
  by rewrite PyFacts.path_suffix_lower, PyFacts.lower_idem.
Qed.

Lemma type_mapping_other (extension : string) :
  extension ∉ [".pdf"; ".docx"; ".doc"; ".xlsx"; ".xls"; ".txt"] ->
  DocumentProcessor.type_mapping !! extension = None.
Proof. intros Hnot. by apply not_elem_of_list_to_map_1. Qed.

Section Upload.
Context `{FileReaders} `{Capabilities}.

(** an upload whose file type is unknown is refused before anything is
    written: the [HTTPException] with status 400 is raised inside the
    handler's [try] block, whose [except Exception] clause turns it into
    one with status 500 *)
Lemma upload_document_unknown (file : UploadFile.t) (w : World) :
  DocumentProcessor.get_file_type (UploadFile.filename file) = "unknown" ->
  upload_document file w = (Raise (HTTPException 500 "400: Unsupported file type"), w).
Proof. intros Hu. unfold upload_document. run. by rewrite Hu. Qed.

(** C10.  [get_file_type] looks the lower-cased suffix of the file name
    up in a table of six extensions with four types ([.doc] goes with
    [docx], [.xls] with [xlsx]), answers ["unknown"] for any other suffix,
    and gives the same answer for file names that differ by letter case
    only; an upload with an unknown type is rejected with the state,
    and so the documents table, unchanged. *)
Theorem get_file_type_spec (filename : string) :
  let extension := Py.lower (Py.path_suffix filename) in
  let file_type := DocumentProcessor.get_file_type filename in
  (extension = ".pdf" -> file_type = "pdf")
  /\ (extension = ".docx" \/ extension = ".doc" -> file_type = "docx")
  /\ (extension = ".xlsx" \/ extension = ".xls" -> file_type = "xlsx")
  /\ (extension = ".txt" -> file_type = "txt")
  /\ (extension ∉ [".pdf"; ".docx"; ".doc"; ".xlsx"; ".xls"; ".txt"] ->
      file_type = "unknown")
  /\ (forall other, Py.lower other = Py.lower filename ->
        DocumentProcessor.get_file_type other = file_type)
  /\ (file_type = "unknown" ->
      forall (data : list N) (w : World),
      exists e, upload_document (UploadFile.mk filename data) w = (Raise e, w)).
Proof.
  intros extension file_type. unfold file_type, DocumentProcessor.get_file_type.
  fold extension. repeat split.
  - by intros ->.
  - by intros [-> | ->].
  - by intros [-> | ->].
  - by intros ->.
  - intros Hnot. by rewrite type_mapping_other.
  - intros other Hother. fold (DocumentProcessor.get_file_type other).
    rewrite <- (get_file_type_lower other), Hother, get_file_type_lower. done.
  - intros Hu data w. eexists. by apply upload_document_unknown.
Qed.

End Upload.
End UploadFacts.

(** ** The chunker *)
Module ChunkerFacts.
Import Py RecursiveCharacterTextSplitter.

Lemma not_is_empty (s : string) : Py.is_empty s = false -> nonempty s.
Proof. by destruct s. Qed.

(** the pieces kept by the regular-expression split are not empty *)
Lemma _split_text_with_regex_nonempty (text separator : string) :
  Forall nonempty (_split_text_with_regex text separator).
Proof.
  unfold _split_text_with_regex. apply Forall_forall. intros s Hs.
  apply list_elem_of_In, filter_In in Hs as [_ Hs].
  apply not_is_empty. by destruct (Py.is_empty s).
Qed.

Lemma _join_docs_nonempty (docs : list string) (separator doc : string) :
  _join_docs docs separator = Some doc -> nonempty doc.
Proof.
  unfold _join_docs. destruct (Py.is_empty _) eqn:E; [done |].
  intros [= <-]. by apply not_is_empty.
Qed.

Lemma merge_step_nonempty (self : t) (separator : string)
    (st : list string * list string * Z) (d : string) :
  Forall nonempty st.1.1 -> Forall nonempty (merge_step self separator st d).1.1.
Proof.
  destruct st as [[docs current_doc] total]. simpl. intros Hdocs.
  unfold merge_step.
  destruct (_ <? _)%Z; [| done].
  destruct (_ <? _)%nat; [| done].
  destruct (pop_front _ _ _ _ _) as [current_doc' total'].
  destruct (_join_docs current_doc separator) as [doc |] eqn:E; simpl; [| done].
  apply Forall_app. split; [done |]. apply Forall_singleton. by eapply _join_docs_nonempty.
Qed.

Lemma merge_fold_nonempty (self : t) (separator : string) (splits : list string)
    (st : list string * list string * Z) :
  Forall nonempty st.1.1 ->
  Forall nonempty (fold_left (merge_step self separator) splits st).1.1.
Proof.
  revert st. induction splits as [| d splits IH]; intros st Hst; [done |].
  simpl. apply IH. by apply merge_step_nonempty.
Qed.

(** every chunk [_merge_splits] builds is not empty *)
Lemma _merge_splits_nonempty (self : t) (splits : list string) (separator : string) :
  Forall nonempty (_merge_splits self splits separator).
Proof.
  unfold _merge_splits.
  pose proof (merge_fold_nonempty self separator splits ([], [], 0%Z) (Forall_nil_2 _)) as Hf.
  destruct (fold_left _ _ _) as [[docs current_doc] total]. simpl in Hf.
  destruct (_join_docs current_doc separator) as [doc |] eqn:E; [| done].
  apply Forall_app. split; [done |]. apply Forall_singleton. by eapply _join_docs_nonempty.
Qed.

Lemma split_with_nonempty (self : t) (recur : option (string -> list string))
    (separator text : string) :
  (forall split_rest s, recur = Some split_rest -> Forall nonempty (split_rest s)) ->
  Forall nonempty (split_with self recur separator text).
Proof.
  intros Hrec. unfold split_with.
  pose proof (_split_text_with_regex_nonempty text separator) as Hsplits.
  set (flush := fun final_chunks _good_splits : list string =>
    match _good_splits with
    | [] => final_chunks
    | _ => final_chunks ++ _merge_splits self _good_splits ""
    end).
  assert (forall f g, Forall nonempty f -> Forall nonempty (flush f g)) as Hflush.
  { intros f g Hf. unfold flush. destruct g; [done |].
    apply Forall_app. split; [done | apply _merge_splits_nonempty]. }
  generalize dependent (_split_text_with_regex text separator). intros splits Hsplits.
  assert (forall st : list string * list string, Forall nonempty st.1 ->
    Forall nonempty
      (let '(final_chunks, _good_splits) :=
         fold_left
           (fun '(final_chunks, _good_splits) s =>
              if (Py.len s <? chunk_size self)%Z
              then (final_chunks, _good_splits ++ [s])
              else
                match recur with
                | None => (flush final_chunks _good_splits ++ [s], [])
                | Some split_rest => (flush final_chunks _good_splits ++ split_rest s, [])
                end) splits st in
       flush final_chunks _good_splits)) as Hfold.
  { induction splits as [| s splits IH]; intros [f g] Hf; simpl in *.
    - by apply Hflush.
    - apply Forall_cons in Hsplits as [Hs Hsplits]. apply IH; [done |].
      destruct (_ <? _)%Z; [done |].
      destruct recur as [split_rest |]; simpl.
      + apply Forall_app. split; [by apply Hflush | by eapply Hrec].
      + apply Forall_app. split; [by apply Hflush | by apply Forall_singleton]. }
  apply (Hfold ([], [])). done.
Qed.

Lemma _split_text_nonempty (self : t) (separators : list string) (text : string) :
  Forall nonempty (_split_text self separators text).
Proof.
  revert text. induction separators as [| _s new_separators IH]; intros text; [done |].
  simpl. destruct (Py.is_empty _s).
  { by apply split_with_nonempty. }
  destruct (contains _s text).
  - destruct new_separators as [| s' rest]; apply split_with_nonempty; [done |].
    intros split_rest s [= <-]. apply IH.
  - destruct new_separators as [| s' rest]; [by apply split_with_nonempty | apply IH].
Qed.

(** the splitter never yields an empty chunk *)
Lemma split_text_nonempty (self : t) (text : string) :
  Forall nonempty (split_text self text).
Proof. apply _split_text_nonempty. Qed.

(** the empty text has no chunk *)
Lemma split_text_empty (self : t) : split_text self "" = [].
Proof. reflexivity. Qed.

(** C8.  The i-th chunk of [chunk_text] carries [chunk_index = i], so the
    indices ascend from zero without a gap; no chunk has an empty
    content, in particular none for a text that is not empty; and the
    empty text yields no chunk. *)
Theorem chunk_text_spec (self : DocumentProcessor.t) (text : string)
    (metadata : option DocumentProcessor.metadata_t) :
  let chunks := DocumentProcessor.chunk_text self text metadata in
  (forall (i : nat) (c : ChunkDoc.t),
     chunks !! i = Some c -> ChunkDoc.chunk_index c = Z.of_nat i)
  /\ (text <> "" -> Forall (fun c => ChunkDoc.content c <> "") chunks)
  /\ DocumentProcessor.chunk_text self "" metadata = [].
Proof.
  unfold DocumentProcessor.chunk_text. split; [| split].
  - intros i c Hc. rewrite list_lookup_imap in Hc.
    destruct (_ !! i); [| done]. simpl in Hc. by injection Hc as <-.
  - intros _. apply Forall_forall. intros c Hc.
    apply list_elem_of_lookup in Hc as [i Hc]. rewrite list_lookup_imap in Hc.
    destruct (split_text _ text !! i) as [s |] eqn:Hs; [| done].
    simpl in Hc. injection Hc as <-. simpl.
    pose proof (split_text_nonempty (DocumentProcessor.text_splitter self) text) as Hall.
    rewrite Forall_forall in Hall. apply Hall. by eapply list_elem_of_lookup_2.
  - reflexivity.
Qed.

End ChunkerFacts.
(** ** More on the similarity search *)
Module SearchMore.
Import RAGPipeline SearchFacts.

Section Search.
Context `{Capabilities}.

(** [vector_search] with a [top_k] that is not negative *)
Lemma vector_search_ok (db : list DocumentChunk.t) (q : vector) (top_k : Z) (thr : Q) :
  (0 <= top_k)%Z ->
  vector_search db q top_k thr =
    Ok (chunk_with_score <$>
          take (Z.to_nat top_k) (merge_sort by_distance (omap (where_similar q thr) db))).
Proof. intros Hk. unfold vector_search. by destruct (Z.ltb_spec top_k 0); [lia |]. Qed.

(** what [vector_search] has when it returns *)
Lemma vector_search_inv (db : list DocumentChunk.t) (q : vector) (top_k : Z) (thr : Q)
    (results : list (DocumentChunk.t * Q)) :
  vector_search db q top_k thr = Ok results ->
  (0 <= top_k)%Z
  /\ results = chunk_with_score <$>
       take (Z.to_nat top_k) (merge_sort by_distance (omap (where_similar q thr) db)).
Proof.
  unfold vector_search. destruct (Z.ltb_spec top_k 0); [done |]. by intros [= <-].
Qed.



(** X3.  Every entry returned stems from a row of the table that has an
    embedding: it carries the row's id, document id, chunk index, content
    and metadata, no embedding, and as score one minus the distance of the
    row's embedding to the query. *)
Theorem vector_search_provenance (db : list DocumentChunk.t) (q : vector) (top_k : Z)
    (thr : Q) (results : list (DocumentChunk.t * Q)) (chunk : DocumentChunk.t) (score : Q) :
  vector_search db q top_k thr = Ok results ->
  (chunk, score) ∈ results ->
  exists row embedding,
    row ∈ db
    /\ DocumentChunk.embedding row = Some embedding
    /\ score = (1 - cosine_distance embedding q)%Q
    /\ chunk = DocumentChunk.mk (DocumentChunk.id row) (DocumentChunk.document_id row)
                 (DocumentChunk.chunk_index row) (DocumentChunk.content row) None
                 (DocumentChunk.metadata row).
Proof.
  intros Hs Hin. apply vector_search_inv in Hs as [_ ->].
  apply list_elem_of_fmap in Hin as ([row d] & Heq & Hin).
  apply elem_of_take in Hin as (i & Hin & _). apply list_elem_of_lookup_2 in Hin.
  rewrite merge_sort_Permutation in Hin.
  apply list_elem_of_omap in Hin as (row' & Hrow & Hsel).
  unfold where_similar in Hsel.
  destruct (DocumentChunk.embedding row') as [e |] eqn:He; [| done].
  destruct (Qlt_le_dec _ _); [| done]. injection Hsel as -> <-.
  exists row, e. simpl in Heq. by injection Heq as -> ->.
Qed.

End Search.
End SearchMore.

(** ** More on the orchestrator *)
Module PipelineMore.
Import RAGPipeline SearchFacts SearchMore PipelineFacts.

Section Pipeline.
Context `{Capabilities}.



(** [generate_answer] up to the end of the retrieval, when the cache
    check finds nothing *)
Lemma generate_answer_after_miss (query session_id : string) (use_cache : bool) (w : World) :
  cache_miss query use_cache w ->
  generate_answer query session_id use_cache w =
    (let '(r, w') := retrieve_context query 5 (set_clock (S (clock w)) w) in
     match r with
     | Raise e => (Raise e, w')
     | Ok (context, sources) =>
         (if Py.is_empty context
          then (now ← time;
                mret (Bundle.mk not_found_answer [] (now - time_time (clock w)) false))
          else
            (record_call (ChainRun context query);;
             answer ← lift (chain_run context query);
             now ← time;
             let response_time := (now - time_time (clock w))%Q in
             let result := Bundle.mk (Py.strip answer) sources response_time false in
             add_chat_history session_id query (Py.strip answer) (json_dumps sources)
               response_time;;
             w ← get_world;
             (if cache_enabled w
              then redis_setex (_get_cache_key query) 3600 (json_dumps result)
              else mret tt);;
             mret result)) w'
     end).
Proof.
  intros Hmiss. unfold cache_miss in Hmiss. unfold generate_answer. run.
  destruct (use_cache && cache_enabled w); simpl.
  - rewrite (Hmiss eq_refl). simpl.
    by destruct (retrieve_context query 5 _) as [[[c s] | e] w'].
  - by destruct (retrieve_context query 5 _) as [[[c s] | e] w'].
Qed.

(** the cache check either finds an entry or misses *)
Lemma cache_check (query : string) (use_cache : bool) (w : World) :
  (exists stored ttl,
     use_cache = true /\ cache_enabled w = true
     /\ redis w !! _get_cache_key query = Some (stored, ttl))
  \/ cache_miss query use_cache w.
Proof.
  unfold cache_miss. destruct use_cache, (cache_enabled w); simpl; try (by right).
  destruct (redis w !! _get_cache_key query) as [[stored ttl] |]; [left | by right].
  by exists stored, ttl.
Qed.

(** the hit *)
Lemma generate_answer_hit_run (query session_id : string) (w : World)
    (stored : json Bundle.t) (ttl : Z) :
  cache_enabled w = true ->
  redis w !! _get_cache_key query = Some (stored, ttl) ->
  generate_answer query session_id true w =
    (Ok (Bundle.mk (Bundle.answer (json_loads stored)) (Bundle.sources (json_loads stored))
           (time_time (S (clock w)) - time_time (clock w)) true),
     set_clock (S (S (clock w))) w).
Proof.
  intros Hen Hget. unfold generate_answer. run. rewrite Hen. simpl. by rewrite Hget.
Qed.

(** a miss whose embedding call fails *)
Lemma generate_answer_embed_fails (query session_id : string) (use_cache : bool)
    (w : World) (e : exn) :
  cache_miss query use_cache w ->
  embed_query query = Raise e ->
  generate_answer query session_id use_cache w =
    (Raise e, set_calls (calls w ++ [EmbedQuery query]) (set_clock (S (clock w)) w)).
Proof.
  intros Hmiss He. rewrite generate_answer_after_miss by done.
  unfold retrieve_context, create_embedding. run. by rewrite He.
Qed.

(** a miss with an empty search result *)
Lemma generate_answer_fallback (query session_id : string) (use_cache : bool)
    (w : World) (e : vector) :
  cache_miss query use_cache w ->
  embed_query query = Ok e ->
  vector_search (document_chunks w) e 5 (7 # 10) = Ok [] ->
  generate_answer query session_id use_cache w =
    (Ok (Bundle.mk not_found_answer [] (time_time (S (clock w)) - time_time (clock w)) false),
     set_clock (S (S (clock w)))
       (set_calls (calls w ++ [EmbedQuery query]) w)).
Proof.
  intros Hmiss He Hs. rewrite generate_answer_after_miss by done.
  by rewrite (retrieve_context_ok query 5 (set_clock (S (clock w)) w) e [] He Hs).
Qed.

(** a miss whose completion call fails *)
Lemma generate_answer_completion_fails (query session_id : string) (use_cache : bool)
    (w : World) (e : vector) (results : list (DocumentChunk.t * Q)) (e' : exn) :
  let context := Py.join (Py.nl +:+ Py.nl) (context_part <$> results) in
  cache_miss query use_cache w ->
  embed_query query = Ok e ->
  vector_search (document_chunks w) e 5 (7 # 10) = Ok results ->
  results <> [] ->
  chain_run context query = Raise e' ->
  generate_answer query session_id use_cache w =
    (Raise e',
     set_calls ((calls w ++ [EmbedQuery query]) ++ [ChainRun context query])
       (set_clock (S (clock w)) w)).
Proof.
  intros context Hmiss He Hs Hne Hrun. rewrite generate_answer_after_miss by done.
  rewrite (retrieve_context_ok query 5 (set_clock (S (clock w)) w) e results He Hs).
  rewrite (context_not_empty results Hne). fold context. clearbody context.
  run. by rewrite Hrun.
Qed.

(** a miss that is answered *)
Lemma generate_answer_answered (query session_id : string) (use_cache : bool)
    (w : World) (e : vector) (results : list (DocumentChunk.t * Q)) (answer : string) :
  let context := Py.join (Py.nl +:+ Py.nl) (context_part <$> results) in
  let sources := source_entry <$> results in
  let t := (time_time (S (clock w)) - time_time (clock w))%Q in
  let result := Bundle.mk (Py.strip answer) sources t false in
  let logged :=
    set_chat_history_id_seq (chat_history_id_seq w + 1)
      (set_chat_history
         (chat_history w ++
            [ChatHistory.mk (chat_history_id_seq w) session_id query (Py.strip answer)
               (json_dumps sources) t])
         (set_clock (S (S (clock w)))
            (set_calls ((calls w ++ [EmbedQuery query]) ++ [ChainRun context query]) w))) in
  cache_miss query use_cache w ->
  embed_query query = Ok e ->
  vector_search (document_chunks w) e 5 (7 # 10) = Ok results ->
  results <> [] ->
  chain_run context query = Ok answer ->
  generate_answer query session_id use_cache w =
    (Ok result,
     if cache_enabled w
     then set_redis (<[_get_cache_key query := (json_dumps result, 3600%Z)]> (redis w)) logged
     else logged).
Proof.
  intros context sources t result logged Hmiss He Hs Hne Hrun.
  rewrite generate_answer_after_miss by done.
  rewrite (retrieve_context_ok query 5 (set_clock (S (clock w)) w) e results He Hs).
  rewrite (context_not_empty results Hne).
  unfold logged, result. fold context sources. clearbody context sources.
  run. rewrite Hrun. simpl. by destruct (cache_enabled w).
Qed.

(** the search of [retrieve_context] as [generate_answer] calls it always
    returns *)
Lemma vector_search_5 (db : list DocumentChunk.t) (e : vector) :
  exists results, vector_search db e 5 (7 # 10) = Ok results.
Proof. eexists. by apply vector_search_ok. Qed.

End Pipeline.

(** the five paths through [generate_answer], each with its outcome
    rewritten in [Hrun] *)
Ltac generate_answer_paths query session_id use_cache w Hrun :=
  let stored := fresh "stored" in
  let ttl := fresh "ttl" in
  let Hen := fresh "Hen" in
  let Hget := fresh "Hget" in
  let Hmiss := fresh "Hmiss" in
  let e := fresh "e" in
  let He := fresh "He" in
  let results := fresh "results" in
  let Hs := fresh "Hs" in
  let r := fresh "r" in
  let answer := fresh "answer" in
  let Hchain := fresh "Hchain" in
  let Huc := fresh "Huc" in
  destruct (cache_check query use_cache w) as [(stored & ttl & Huc & Hen & Hget) | Hmiss];
  [ try rewrite Huc in *;
    rewrite (generate_answer_hit_run query session_id w stored ttl Hen Hget) in Hrun
  | destruct (embed_query query) as [e | e] eqn:He;
    [ destruct (vector_search_5 (document_chunks w) e) as [results Hs];
      destruct results as [| r results];
      [ rewrite (generate_answer_fallback query session_id use_cache w e Hmiss He Hs) in Hrun
      | destruct (chain_run (Py.join (Py.nl +:+ Py.nl) (context_part <$> r :: results)) query)
          as [answer | answer] eqn:Hchain;
        [ rewrite (generate_answer_answered query session_id use_cache w e (r :: results)
                     answer Hmiss He Hs ltac:(done) Hchain) in Hrun
        | rewrite (generate_answer_completion_fails query session_id use_cache w e
                     (r :: results) answer Hmiss He Hs ltac:(done) Hchain) in Hrun ] ]
    | rewrite (generate_answer_embed_fails query session_id use_cache w e Hmiss He) in Hrun ] ].

Section Orchestrator.
Context `{Capabilities}.

(** X5.  A query never writes the index: whatever its outcome,
    [generate_answer] leaves the documents, the chunks, the files, the
    task queue and the [cache_enabled] flag as they were. *)
Theorem generate_answer_frame (query session_id : string) (use_cache : bool)
    (w w' : World) (r : result Bundle.t) :
  generate_answer query session_id use_cache w = (r, w') ->
  documents w' = documents w
  /\ document_chunks w' = document_chunks w
  /\ files w' = files w
  /\ background_tasks w' = background_tasks w
  /\ cache_enabled w' = cache_enabled w.
Proof.
  intros Hrun.
  generate_answer_paths query session_id use_cache w Hrun;
    injection Hrun as <- <-; try done.
  destruct (cache_enabled w) eqn:E; simpl; by rewrite ?E.
Qed.


(** X7.  The history grows only by an answer that was generated: a bundle
    served from the cache or the fallback leaves the history as it was, a
    generated answer appends one row holding the query, the answer, the
    sources and the response time of the bundle. *)
Theorem generate_answer_history (query session_id : string) (use_cache : bool)
    (w w' : World) (bundle : Bundle.t) :
  generate_answer query session_id use_cache w = (Ok bundle, w') ->
  (Bundle.cached bundle = true \/ Bundle.sources bundle = [] ->
   chat_history w' = chat_history w)
  /\ (Bundle.cached bundle = false -> Bundle.sources bundle <> [] ->
      chat_history w' =
        chat_history w ++
          [ChatHistory.mk (chat_history_id_seq w) session_id query (Bundle.answer bundle)
             (json_dumps (Bundle.sources bundle)) (Bundle.response_time bundle)]).
Proof.
  intros Hrun.
  generate_answer_paths query session_id use_cache w Hrun; try done;
    injection Hrun as <- <-; simpl.
  - split; [done |]. done.
  - split; [done |]. done.
  - split; [| by destruct (cache_enabled w)].
    intros [? | ?]; done.
Qed.

(** X8.  With [use_cache = false] or caching disabled the cache is not read:
    the bundle returned is never marked as cached.  With caching disabled
    the store is not written either. *)
Theorem generate_answer_cache_unused (query session_id : string) (use_cache : bool)
    (w w' : World) (r : result Bundle.t) :
  generate_answer query session_id use_cache w = (r, w') ->
  (use_cache && cache_enabled w = false ->
   forall bundle, r = Ok bundle -> Bundle.cached bundle = false)
  /\ (cache_enabled w = false -> redis w' = redis w).
Proof.
  intros Hrun.
  generate_answer_paths query session_id use_cache w Hrun;
    injection Hrun as <- <-; simpl; split; try done.
  - rewrite Hen. done.
  - by intros _ b [= <-].
  - by intros _ b [= <-].
  - by intros ->.
Qed.


End Orchestrator.
End PipelineMore.

(** ** More on the handlers *)
Module MainMore.
Import RAGPipeline Main SearchMore PipelineFacts PipelineMore MainFacts.

(** a key of the pipeline is in its namespace *)
Lemma cache_key_in_namespace `{Capabilities} (query : string) :
  String.prefix "rag:query:" (_get_cache_key query) = true.
Proof.
  unfold _get_cache_key. generalize (md5_hexdigest (Py.encode (Py.strip (Py.lower query)))).
  intros query_hash. by destruct query_hash.
Qed.

Lemma find_document_none (document_id : Z) (docs : list Document.t) :
  (forall d, d ∈ docs -> Document.id d <> document_id) ->
  List.find (fun d => (Document.id d =? document_id)%Z) docs = None.
Proof.
  intros Hnone. destruct (List.find _ docs) as [d |] eqn:Hfind; [| done].
  apply find_some in Hfind as [Hin Hid]. apply list_elem_of_In in Hin.
  specialize (Hnone d Hin). lia.
Qed.

Lemma find_document_some (document_id : Z) (docs : list Document.t) (doc : Document.t) :
  List.find (fun d => (Document.id d =? document_id)%Z) docs = Some doc ->
  doc ∈ docs /\ Document.id doc = document_id.
Proof.
  intros Hfind. apply find_some in Hfind as [Hin Hid].
  split; [by apply list_elem_of_In | lia].
Qed.

(** with unique ids, looking an id up finds the row that carries it *)
Lemma find_document_unique (docs : list Document.t) (doc : Document.t) :
  NoDup (Document.id <$> docs) -> doc ∈ docs ->
  List.find (fun d => (Document.id d =? Document.id doc)%Z) docs = Some doc.
Proof.
  induction docs as [| d docs IH]; intros Hnd Hin; [by apply elem_of_nil in Hin |].
  rewrite fmap_cons in Hnd. apply NoDup_cons in Hnd as [Hd Hnd]. simpl.
  apply elem_of_cons in Hin as [-> | Hin].
  - by rewrite Z.eqb_refl.
  - destruct (Z.eqb_spec (Document.id d) (Document.id doc)) as [Heq | _]; [| by apply IH].
    exfalso. apply Hd. rewrite Heq. apply list_elem_of_fmap. by exists doc.
Qed.

Section Handlers.
Context `{FileReaders} `{Capabilities}.

(** the state after a successful [delete_document] *)
Lemma delete_document_ok (document_id : Z) (w w' : World) (msg : string) :
  delete_document document_id w = (Ok msg, w') ->
  exists doc,
    doc ∈ documents w /\ Document.id doc = document_id
    /\ w' = (clear_cache
               (set_documents
                  (List.filter (fun d => negb (Document.id d =? document_id)%Z) (documents w))
                  (set_document_chunks
                     (List.filter
                        (fun c => negb (DocumentChunk.document_id c =? document_id)%Z)
                        (document_chunks w)) w))).2.
Proof.
  unfold delete_document, query_document. run.
  destruct (List.find _ (documents w)) as [doc |] eqn:Hfind; [| done].
  apply find_document_some in Hfind as [Hin Hid]. simpl. rewrite Hid.
  destruct (clear_cache _) as [[[] | e] w1] eqn:Hclear; simpl; [| done].
  intros [= _ <-]. by exists doc.
Qed.

(** what [clear_cache] leaves in the store *)
Lemma clear_cache_store (w : World) :
  exists w',
    clear_cache w = (Ok tt, w')
    /\ cache_enabled w' = cache_enabled w
    /\ documents w' = documents w
    /\ document_chunks w' = document_chunks w
    /\ documents_id_seq w' = documents_id_seq w
    /\ (cache_enabled w = true ->
        forall key, String.prefix "rag:query:" key = true -> redis w' !! key = None).
Proof.
  destruct (cache_enabled w) eqn:Hen.
  - rewrite clear_cache_enabled by done. eexists. split; [done |]. simpl.
    repeat (split; [done |]). intros _ key Hkey. rewrite lookup_foldr_delete.
    destruct (decide _) as [| Hnin]; [done |].
    destruct (redis w !! key) as [v |] eqn:Hv; [| done]. exfalso. apply Hnin.
    apply list_elem_of_In, filter_In. split; [| done].
    apply list_elem_of_In, elem_of_elements, elem_of_dom. by exists v.
  - rewrite clear_cache_disabled by done. exists w. by rewrite Hen.
Qed.

(** X12.  After a document has been deleted no query is answered from the
    cache: whatever was cached before, the next answer to any query has
    [cached = false]. *)
Theorem delete_document_invalidates (document_id : Z) (w w1 w2 : World) (msg : string)
    (query session_id : string) (use_cache : bool) (bundle : Bundle.t) :
  delete_document document_id w = (Ok msg, w1) ->
  generate_answer query session_id use_cache w1 = (Ok bundle, w2) ->
  Bundle.cached bundle = false.
Proof.
  intros Hdel Hrun. apply delete_document_ok in Hdel as (doc & _ & _ & ->).
  match type of Hrun with context [clear_cache ?w0] =>
    destruct (clear_cache_store w0) as (w1 & Hclear & Hen & _ & _ & _ & Hgone);
    rewrite Hclear in Hrun; simpl in Hrun, Hen
  end.
  generate_answer_paths query session_id use_cache w1 Hrun; try done;
    injection Hrun as <- <-; try done.
  rewrite Hen in *. rewrite (Hgone ltac:(done) _ (cache_key_in_namespace query)) in Hget.
  done.
Qed.

(** X13.  A lookup or a deletion by an id no document has is answered with
    status 404 and changes nothing. *)
Theorem unknown_document_404 (document_id : Z) (w : World) :
  (forall d, d ∈ documents w -> Document.id d <> document_id) ->
  get_document document_id w = (Raise (HTTPException 404 "Document not found"), w)
  /\ delete_document document_id w = (Raise (HTTPException 404 "Document not found"), w).
Proof.
  intros Hnone. apply find_document_none in Hnone.
  unfold get_document, delete_document, query_document. run. by rewrite Hnone.
Qed.



End Handlers.
End MainMore.

(** ** More on the upload and on the worker *)
Module IngestMore.
Import RAGPipeline Main PipelineFacts MainFacts WorkerFacts UploadFacts MainMore.


Section Ingest.
Context `{FileReaders} `{Capabilities}.


(** what [upload_document] leaves behind, whatever its outcome *)
Lemma upload_document_effect (file : UploadFile.t) (w w' : World)
    (r : result DocumentResponse.t) :
  upload_document file w = (r, w') ->
  (w' = w /\ exists e, r = Raise e)
  \/ (exists doc,
        Document.id doc = documents_id_seq w
        /\ r = Ok (document_response doc)
        /\ documents w' = documents w ++ [doc]
        /\ documents_id_seq w' = (documents_id_seq w + 1)%Z
        /\ document_chunks w' = document_chunks w).
Proof.
  unfold upload_document, add_document. run.
  destruct (String.eqb _ "unknown").
  - intros [= <- <-]. left. eauto.
  - intros [= <- <-]. right.
    by exists (Document.mk (documents_id_seq w) (UploadFile.filename file)
                 (DocumentProcessor.get_file_type (UploadFile.filename file)) ""
                 (Z.of_nat (length (UploadFile.file file))) None false).
Qed.

(** X18.  Upload and lookup round trip: on a table with unique ids, the
    document an upload has created is found under the id of the response,
    and [get_document] answers with that same response. *)
Theorem upload_then_get_document (file : UploadFile.t) (w w' : World)
    (response : DocumentResponse.t) :
  unique_ids w ->
  upload_document file w = (Ok response, w') ->
  get_document (DocumentResponse.id response) w' = (Ok response, w').
Proof.
  intros [Hnd Hlt] Hup.
  apply upload_document_effect in Hup as [[_ [e He]] | (doc & Hid & Hr & Hdocs & _)];
    [done |].
  injection Hr as ->. unfold get_document, query_document. run. rewrite Hdocs.
  change (Document.id doc) with (Document.id doc).
  rewrite (find_document_unique (documents w ++ [doc]) doc); [done | | set_solver].
  rewrite fmap_app. apply NoDup_app. split; [done |]. split; [| apply NoDup_singleton].
  intros x Hx Hx'. apply list_elem_of_fmap in Hx as (d & -> & Hd).
  apply list_elem_of_singleton in Hx'. specialize (Hlt d Hd). simpl in Hx'. lia.
Qed.

(** X14.  Deletion and lookup: after a document has been deleted, looking its
    id up is answered with status 404. *)
Theorem delete_then_get_document (document_id : Z) (w w' : World) (msg : string) :
  delete_document document_id w = (Ok msg, w') ->
  get_document document_id w' = (Raise (HTTPException 404 "Document not found"), w').
Proof.
  intros Hdel. apply delete_document_ok in Hdel as (doc & _ & _ & ->).
  match goal with |- context [clear_cache ?w0] =>
    destruct (clear_cache_store w0) as (w1 & Hclear & _ & Hdocs & _);
    rewrite Hclear; simpl in *
  end.
  unfold get_document, query_document. run. rewrite Hdocs.
  rewrite find_document_none; [done |].
  intros d Hd. apply list_elem_of_In, filter_In in Hd as [_ Hd]. lia.
Qed.

(** a successful extraction has read the file *)
Lemma extract_text_file (file_path file_type : string) (w w1 : World)
    (r : string * DocumentProcessor.metadata_t) :
  DocumentProcessor.extract_text file_path file_type w = (Ok r, w1) ->
  is_Some (files w !! file_path).
Proof.
  unfold DocumentProcessor.extract_text, DocumentProcessor._extract_from_pdf,
    DocumentProcessor._extract_from_docx, DocumentProcessor._extract_from_xlsx,
    DocumentProcessor._extract_from_txt, DocumentProcessor.read_file.
  run.
  repeat (match goal with |- context [if ?b then _ else _] => destruct b end);
    try done; by destruct (files w !! file_path).
Qed.

(** X21.  The text [extract_text] returns is stripped, and its metadata name
    the file type that was asked for. *)
Theorem extract_text_result (file_path file_type : string) (w w1 : World)
    (text : string) (metadata : DocumentProcessor.metadata_t) :
  DocumentProcessor.extract_text file_path file_type w = (Ok (text, metadata), w1) ->
  Py.strip text = text
  /\ metadata !! "file_type" = Some (MStr file_type)
  /\ file_type ∈ ["pdf"; "docx"; "xlsx"; "txt"]
  /\ w1 = w.
Proof.
  intros Hx. split; [| split; [| split; [| by eapply extract_text_world]]]; revert Hx;
    unfold DocumentProcessor.extract_text, DocumentProcessor._extract_from_pdf,
      DocumentProcessor._extract_from_docx, DocumentProcessor._extract_from_xlsx,
      DocumentProcessor._extract_from_txt, DocumentProcessor.read_file;
    run;
    repeat (match goal with |- context [String.eqb ?a ?b] =>
              destruct (String.eqb_spec a b) as [-> |] end);
    try done;
    (destruct (files w !! file_path); [| done]);
    match goal with |- context [match ?r with Ok _ => _ | Raise _ => _ end] =>
      destruct r end; try done; intros [= <- <- _];
    first [apply PyFacts.strip_idem | done | set_solver].
Qed.

(** X22.  [extract_text] refuses every type other than the four it knows,
    among them ["unknown"] and the upper-case spellings, with a
    [ValueError] that names the type; no file is read and the state is
    unchanged. *)
Theorem extract_text_errors (file_path file_type : string) (w : World) :
  file_type ∉ ["pdf"; "docx"; "xlsx"; "txt"] ->
  DocumentProcessor.extract_text file_path file_type w =
    (Raise (Exception "ValueError" ("Unsupported file type: " +:+ file_type)), w).
Proof.
  intros Hnot. unfold DocumentProcessor.extract_text.
  repeat (match goal with |- context [String.eqb ?a ?b] =>
            destruct (String.eqb_spec a b) as [-> |] end); try done;
    exfalso; apply Hnot; set_solver.
Qed.

End Ingest.
End IngestMore.

(** ** The worker's paths and the consistency of the tables *)
Module WorkerMore.
Import RAGPipeline Main PipelineFacts PipelineMore MainFacts WorkerFacts MainMore IngestMore.

(** dropping rows keeps the ids unique *)
Lemma NoDup_ids_filter (p : Document.t -> bool) (docs : list Document.t) :
  NoDup (Document.id <$> docs) -> NoDup (Document.id <$> List.filter p docs).
Proof.
  induction docs as [| d docs IH]; [done |].
  rewrite fmap_cons. intros [Hd Hnd]%NoDup_cons. simpl.
  destruct (p d); [| by apply IH]. rewrite fmap_cons. apply NoDup_cons. split; [| by apply IH].
  intros Hin. apply Hd. apply list_elem_of_fmap in Hin as (d' & -> & Hin).
  apply list_elem_of_In, filter_In in Hin as [Hin _]. apply list_elem_of_fmap.
  exists d'. split; [done | by apply list_elem_of_In].
Qed.

Section Worker.
Context `{FileReaders} `{Capabilities}.

Lemma worker_succeeds_run (w : World) (doc_id : Z) (file_path file_type : string)
    (text : string) (metadata : DocumentProcessor.metadata_t) (w1 : World)
    (embeddings : list vector) :
  let chunks := DocumentProcessor.chunk_text document_processor text (Some metadata) in
  let new :=
    imap (fun i r => r (document_chunks_id_seq w + Z.of_nat i)%Z)
      (imap (fun i '(chunk, embedding) => fun id =>
               DocumentChunk.mk id doc_id (Z.of_nat i) (ChunkDoc.content chunk)
                 (Some embedding) (ChunkDoc.metadata chunk))
            (zip chunks embeddings)) in
  DocumentProcessor.extract_text file_path file_type w = (Ok (text, metadata), w1) ->
  embed_documents (ChunkDoc.content <$> chunks) = Ok embeddings ->
  (exists d, d ∈ documents w /\ Document.id d = doc_id) ->
  process_document_background doc_id file_path file_type w =
    (Ok tt,
     set_files (delete file_path (files w))
       (set_documents
          ((fun d => if (Document.id d =? doc_id)%Z then processed_row text metadata d else d)
             <$> documents w)
          (set_document_chunks_id_seq
             (document_chunks_id_seq w + Z.of_nat (length new))
             (set_document_chunks (document_chunks w ++ new)
                (set_calls (calls w ++ [EmbedDocuments (ChunkDoc.content <$> chunks)]) w))))).
Proof.
  intros chunks new Hx Hemb (d & Hd & Hid).
  pose proof (extract_text_world _ _ _ _ _ Hx) as ->.
  destruct (extract_text_file _ _ _ _ _ Hx) as [data Hfile].
  destruct (List.find (fun d => (Document.id d =? doc_id)%Z) (documents w))
    as [doc |] eqn:Hfind.
  2:{ apply list_elem_of_In in Hd. eapply find_none in Hfind; [| exact Hd].
      simpl in Hfind. lia. }
  unfold process_document_background, process_document_try, create_embeddings_batch,
    query_document, insert_chunks, update_document, os_remove.
  run. rewrite Hx. simpl. fold chunks. rewrite Hemb. simpl. rewrite Hfind. simpl.
  rewrite Hfile. unfold new. by rewrite !length_imap.
Qed.


(** X24.  When the document row is gone by the time its chunks are embedded,
    the worker stores nothing: no chunk row is inserted, the tables and
    the uploaded file stay as they were, and the failure to update the
    missing row is printed. *)
Theorem worker_document_gone (w : World) (doc_id : Z) (file_path file_type : string)
    (text : string) (metadata : DocumentProcessor.metadata_t) (w1 : World)
    (embeddings : list vector) :
  DocumentProcessor.extract_text file_path file_type w = (Ok (text, metadata), w1) ->
  embed_documents
    (ChunkDoc.content <$> DocumentProcessor.chunk_text document_processor text (Some metadata))
    = Ok embeddings ->
  (forall d, d ∈ documents w -> Document.id d <> doc_id) ->
  exists w',
    process_document_background doc_id file_path file_type w = (Ok tt, w')
    /\ document_chunks w' = document_chunks w
    /\ documents w' = documents w
    /\ files w' = files w
    /\ stdout w' =
         stdout w ++
           [error_line doc_id
              (Exception "AttributeError" "'NoneType' object has no attribute 'content'")].
Proof.
  intros Hx Hemb Hnone.
  pose proof (extract_text_world _ _ _ _ _ Hx) as ->.
  apply find_document_none in Hnone.
  unfold process_document_background, process_document_try, process_document_except,
    create_embeddings_batch, query_document.
  run. rewrite Hx. simpl. rewrite Hemb. simpl. rewrite Hnone. simpl. rewrite Hnone.
  eexists. split; [reflexivity |]. done.
Qed.

(** what the worker does to the tables, whatever path it takes *)
Lemma process_document_background_effect (doc_id : Z) (file_path file_type : string)
    (w : World) :
  exists w' f new,
    process_document_background doc_id file_path file_type w = (Ok tt, w')
    /\ (forall d, Document.id (f d) = Document.id d)
    /\ documents w' = f <$> documents w
    /\ documents_id_seq w' = documents_id_seq w
    /\ document_chunks w' = document_chunks w ++ new
    /\ (new = []
        \/ ((exists d, d ∈ documents w /\ Document.id d = doc_id)
            /\ Forall (fun c => DocumentChunk.document_id c = doc_id) new)).
Proof.
  assert (forall e w1,
    process_document_try doc_id file_path file_type w = (Raise e, w1) ->
    documents w1 = documents w -> documents_id_seq w1 = documents_id_seq w ->
    document_chunks w1 = document_chunks w ->
    exists w' f new,
      process_document_background doc_id file_path file_type w = (Ok tt, w')
      /\ (forall d, Document.id (f d) = Document.id d)
      /\ documents w' = f <$> documents w
      /\ documents_id_seq w' = documents_id_seq w
      /\ document_chunks w' = document_chunks w ++ new
      /\ (new = []
          \/ ((exists d, d ∈ documents w /\ Document.id d = doc_id)
              /\ Forall (fun c => DocumentChunk.document_id c = doc_id) new))) as Hfailed.
  { intros e w1 Htry Hdocs Hseq Hchunks.
    unfold process_document_background, try_except. rewrite Htry.
    rewrite process_document_except_ok.
    eexists _, (fun d => if (Document.id d =? doc_id)%Z then unprocessed d else d), [].
    split; [reflexivity |]. simpl. rewrite Hdocs, Hseq, Hchunks, app_nil_r.
    split; [| by eauto]. intros d. by destruct (Document.id d =? doc_id)%Z. }
  destruct (DocumentProcessor.extract_text file_path file_type w)
    as [[[text metadata] | e] w1] eqn:Hx;
    pose proof (extract_text_world _ _ _ _ _ Hx) as ->.
  2:{ apply (Hfailed e w); try done. unfold process_document_try. run. by rewrite Hx. }
  destruct (embed_documents
              (ChunkDoc.content <$>
                 DocumentProcessor.chunk_text document_processor text (Some metadata)))
    as [embeddings | e] eqn:Hemb.
  2:{ eapply (Hfailed e); [| | | ].
      - unfold process_document_try, create_embeddings_batch. run.
        rewrite Hx. simpl. by rewrite Hemb.
      - done.
      - done.
      - done. }
  destruct (List.find (fun d => (Document.id d =? doc_id)%Z) (documents w))
    as [doc |] eqn:Hfind.
  - apply find_document_some in Hfind as [Hin Hid].
    eexists _,
      (fun d => if (Document.id d =? doc_id)%Z then processed_row text metadata d else d), _.
    split.
    { eapply worker_succeeds_run; [exact Hx | exact Hemb | by exists doc]. }
    split; [| split; [reflexivity |]; split; [reflexivity |]; split; [reflexivity |]].
    { intros d. by destruct (Document.id d =? doc_id)%Z. }
    right. split; [by exists doc |].
    apply Forall_forall. intros c Hc. apply list_elem_of_lookup in Hc as [i Hc].
    rewrite !list_lookup_imap in Hc.
    destruct (zip _ embeddings !! i) as [[chunk embedding] |]; [| by simpl in Hc].
    simpl in Hc. by injection Hc as <-.
  - eapply (Hfailed _); [| | | ].
    + unfold process_document_try, create_embeddings_batch, query_document. run.
      rewrite Hx. simpl. rewrite Hemb. simpl. by rewrite Hfind.
    + done.
    + done.
    + done.
Qed.

(** [delete_document] on an id that is not there changes nothing *)
Lemma delete_document_raise (document_id : Z) (w w' : World) (e : exn) :
  delete_document document_id w = (Raise e, w') -> w' = w.
Proof.
  unfold delete_document, query_document. run.
  destruct (List.find _ (documents w)) as [doc |]; simpl; [| by intros [= _ <-]].
  match goal with |- context [clear_cache ?w0] =>
    destruct (clear_cache_store w0) as (w1 & -> & _) end. done.
Qed.

(** X25.  The handlers keep the tables consistent.  If the document ids are
    unique and below their sequence, and every chunk belongs to a
    document of the table, then the same holds after an upload, after a
    run of the background worker, after a deletion and after a query,
    whatever the outcome of the handler. *)
Theorem handlers_keep_tables_consistent (w : World) :
  unique_ids w -> no_orphans w ->
  (forall file r w', upload_document file w = (r, w') -> unique_ids w' /\ no_orphans w')
  /\ (forall doc_id file_path file_type r w',
        process_document_background doc_id file_path file_type w = (r, w') ->
        unique_ids w' /\ no_orphans w')
  /\ (forall document_id r w',
        delete_document document_id w = (r, w') -> unique_ids w' /\ no_orphans w')
  /\ (forall request r w',
        query_documents request w = (r, w') -> unique_ids w' /\ no_orphans w').
Proof.
  intros [Hnd Hlt] Horph. split; [| split; [| split]].
  - intros file r w' Hup.
    apply upload_document_effect in Hup
      as [[-> _] | (doc & Hid & _ & Hdocs & Hseq & Hchunks)]; [done |].
    split; [split |].
    + rewrite Hdocs, fmap_app. apply NoDup_app. split; [done |].
      split; [| apply NoDup_singleton].
      intros x Hx Hx'. apply list_elem_of_fmap in Hx as (d & -> & Hd).
      apply list_elem_of_singleton in Hx'. specialize (Hlt d Hd). simpl in Hx'. lia.
    + intros d Hd. rewrite Hdocs in Hd. rewrite Hseq.
      apply elem_of_app in Hd as [Hd | Hd]; [specialize (Hlt d Hd); lia |].
      apply list_elem_of_singleton in Hd as ->. lia.
    + intros c Hc. rewrite Hchunks in Hc. destruct (Horph c Hc) as (d & Hd & Hcd).
      exists d. split; [| done]. rewrite Hdocs. apply elem_of_app. by left.
  - intros doc_id file_path file_type r w' Hrun.
    destruct (process_document_background_effect doc_id file_path file_type w)
      as (w2 & f & new & Hrun' & Hf & Hdocs & Hseq & Hchunks & Hnew).
    rewrite Hrun' in Hrun. injection Hrun as _ <-.
    assert (Document.id <$> (f <$> documents w) = Document.id <$> documents w) as Hids.
    { rewrite <- list_fmap_compose. apply list_fmap_ext. intros _ d _. apply Hf. }
    split; [split |].
    + by rewrite Hdocs, Hids.
    + intros d Hd. rewrite Hdocs in Hd. apply list_elem_of_fmap in Hd as (d0 & -> & Hd0).
      rewrite Hf, Hseq. by apply Hlt.
    + intros c Hc. rewrite Hchunks in Hc. rewrite Hdocs.
      apply elem_of_app in Hc as [Hc | Hc].
      * destruct (Horph c Hc) as (d & Hd & Hcd). exists (f d).
        split; [apply list_elem_of_fmap; by exists d | by rewrite Hf].
      * destruct Hnew as [-> | [(d & Hd & Hid) Hall]]; [by apply elem_of_nil in Hc |].
        rewrite Forall_forall in Hall. exists (f d).
        split; [apply list_elem_of_fmap; by exists d |]. rewrite Hf, Hid.
        symmetry. by apply Hall.
  - intros document_id [msg | e] w' Hdel.
    2:{ by apply delete_document_raise in Hdel as ->. }
    apply delete_document_ok in Hdel as (doc & _ & _ & ->).
    match goal with |- context [clear_cache ?w0] =>
      destruct (clear_cache_store w0) as (w1 & -> & _ & Hdocs & Hchunks & Hseq & _)
    end.
    simpl in *. unfold unique_ids, no_orphans. rewrite Hdocs, Hchunks, Hseq.
    split; [split |].
    + by apply NoDup_ids_filter.
    + intros d Hd. apply list_elem_of_In, filter_In in Hd as [Hd _].
      by apply Hlt, list_elem_of_In.
    + intros c Hc. apply list_elem_of_In, filter_In in Hc as [Hc Hne].
      apply list_elem_of_In in Hc. destruct (Horph c Hc) as (d & Hd & Hcd).
      exists d. split; [| done]. apply list_elem_of_In, filter_In.
      split; [by apply list_elem_of_In |]. rewrite Hcd. done.
  - intros request r w'. unfold query_documents, try_except.
    destruct (generate_answer _ _ true w) as [[b | e] w1] eqn:Hrun; unfold raise;
      intros [= _ <-];
      generate_answer_paths (QueryRequest.query request) (QueryRequest.session_id request)
        true w Hrun; injection Hrun as _ <-; try done;
      by destruct (cache_enabled w).
Qed.

End Worker.
End WorkerMore.

(** ** Previews, paths and file names *)
Module TextMore.
Import Py PyFacts RAGPipeline Main.

Lemma length_take (n : nat) (s : string) :
  String.length (take n s) = n `min` String.length s.
Proof.
  revert s. induction n as [| n IH]; intros [| c s]; simpl; try done. by rewrite IH.
Qed.

Lemma length_app (s t : string) :
  String.length (s +:+ t) = (String.length s + String.length t)%nat.
Proof. induction s as [| c s IH]; simpl; [done |]. by rewrite IH. Qed.

Lemma take_app_ge (n : nat) (s t : string) :
  (n <= String.length s)%nat -> take n (s +:+ t) = take n s.
Proof.
  revert s. induction n as [| n IH]; intros [| c s] Hn; simpl in *; try done; [lia |].
  rewrite IH; [done | lia].
Qed.

Lemma take_take (n : nat) (s : string) : take n (take n s) = take n s.
Proof. revert s. induction n as [| n IH]; intros [| c s]; simpl; try done. by rewrite IH. Qed.

(** X26.  A content preview has at most 203 characters, is the content itself
    when that has at most 200 characters, and agrees with the content on
    its first 200 characters in any case. *)
Theorem content_preview_spec (content : string) :
  (len (content_preview content) <= 203)%Z
  /\ ((len content <= 200)%Z -> content_preview content = content)
  /\ take 200 (content_preview content) = take 200 content.
Proof.
  unfold content_preview, len.
  destruct (Z.ltb_spec 200 (Z.of_nat (String.length content))) as [Hlong | Hshort].
  - split; [| split; [lia |]].
    + rewrite length_app, length_take. change (String.length "...") with 3%nat. lia.
    + rewrite take_app_ge; [apply take_take |]. rewrite length_take. lia.
  - split; [lia |]. done.
Qed.

(** a string without the separator is its own single piece *)
Lemma split_no_sep (sep : ascii) (s : string) :
  has_char sep s = false -> split sep s = [s].
Proof.
  induction s as [| c s IH]; [done |]. simpl.
  destruct (Ascii.eqb c sep); [done |]. simpl. intros Hno. by rewrite IH.
Qed.

Lemma path_name_plain (name : string) :
  has_char "/" name = false -> is_component name = true -> path_name name = name.
Proof.
  intros Hno Hcomp. unfold path_name. rewrite split_no_sep by done. simpl. by rewrite Hcomp.
Qed.

Lemma prefix_slash (name : string) :
  has_char "/" name = false -> String.prefix "/" name = false.
Proof.
  destruct name as [| c name]; [done |]. cbn [has_char String.prefix]. intros Hno.
  destruct (Ascii.ascii_dec "/" c) as [<- | _]; [| done].
  by rewrite Ascii.eqb_refl in Hno.
Qed.

(** X19.  An upload with a plain file name, one without a slash that is not
    empty and not a single dot, is stored directly under the upload
    directory. *)
Theorem upload_path_plain (name : string) :
  has_char "/" name = false ->
  is_component name = true ->
  path_div UPLOAD_DIR name = UPLOAD_DIR +:+ "/" +:+ name.
Proof.
  intros Hno Hcomp. unfold path_div.
  rewrite split_no_sep, prefix_slash by done. cbn [List.filter]. by rewrite Hcomp.
Qed.

Lemma rfind_from_none (c : ascii) (i : Z) (s : string) :
  has_char c s = false -> rfind_from c i s = (-1)%Z.
Proof.
  revert i. induction s as [| a s IH]; intros i; [done |]. simpl.
  destruct (Ascii.eqb a c); [done |]. simpl. intros Hno. by rewrite IH.
Qed.

(** the last dot of [stem ++ "." ++ ext] when [ext] has no dot *)
Lemma rfind_from_dot_ext (i : Z) (stem ext : string) :
  (0 <= i)%Z -> has_char "." ext = false ->
  rfind_from "." i (stem +:+ String "." ext) = (i + Z.of_nat (String.length stem))%Z.
Proof.
  intros Hi Hno. revert i Hi. induction stem as [| c stem IH]; intros i Hi.
  - simpl. rewrite rfind_from_none by done. simpl. lia.
  - simpl. rewrite IH by lia.
    destruct (Z.leb_spec 0 (i + 1 + Z.of_nat (String.length stem))); lia.
Qed.

Lemma drop_app_length (stem t : string) : drop (String.length stem) (stem +:+ t) = t.
Proof. induction stem as [| c stem IH]; [done | exact IH]. Qed.

Lemma has_char_app (c : ascii) (s t : string) :
  has_char c (s +:+ t) = has_char c s || has_char c t.
Proof. induction s as [| a s IH]; simpl; [done |]. by rewrite IH, orb_assoc. Qed.

Lemma has_char_slash_lower (s : string) : has_char "/" (lower s) = has_char "/" s.
Proof. induction s as [| a s IH]; simpl; [done |]. by rewrite char_lower_slash, IH. Qed.

(** The suffix of a plain file name: for a stem that is not empty and an
    extension that is not empty and has no dot, both without slash, the
    suffix of [stem.ext] is [.ext]. *)
Lemma path_suffix_plain (stem ext : string) :
  stem <> "" -> ext <> "" ->
  has_char "/" stem = false -> has_char "/" ext = false -> has_char "." ext = false ->
  path_suffix (stem +:+ String "." ext) = String "." ext.
Proof.
  intros Hstem Hext Hs He Hd. unfold path_suffix.
  rewrite path_name_plain.
  - unfold rfind. rewrite rfind_from_dot_ext by done.
    unfold len. rewrite length_app.
    destruct stem as [| a stem]; [done |]. destruct ext as [| b ext]; [done |].
    cbn [String.length].
    destruct (Z.ltb_spec 0 (0 + Z.of_nat (S (String.length stem)))); [| lia].
    destruct (Z.ltb_spec (0 + Z.of_nat (S (String.length stem)))
                (Z.of_nat (S (String.length stem) + S (S (String.length ext))) - 1)); [| lia].
    cbn [andb].
    replace (Z.to_nat (0 + Z.of_nat (S (String.length stem))))
      with (String.length (String a stem)) by (cbn [String.length]; lia).
    apply drop_app_length.
  - rewrite has_char_app. simpl. by rewrite Hs, He.
  - destruct stem as [| a [| a' stem]]; [done | |];
      unfold is_component; simpl; by destruct (Ascii.eqb a ".").
Qed.

(** X20.  Every plain file name with one of the six extensions, in any letter
    case, gets the extension's type: the stem may be any text without
    slash that is not empty. *)
Theorem get_file_type_plain (stem ext : string) :
  stem <> "" ->
  has_char "/" stem = false ->
  lower ext ∈ ["pdf"; "docx"; "doc"; "xlsx"; "xls"; "txt"] ->
  DocumentProcessor.get_file_type (stem +:+ String "." ext) =
    default "unknown" (DocumentProcessor.type_mapping !! (String "." (lower ext)))
  /\ DocumentProcessor.get_file_type (stem +:+ String "." ext) <> "unknown".
Proof.
  intros Hstem Hs Hext.
  assert (DocumentProcessor.get_file_type (stem +:+ String "." ext) =
          default "unknown" (DocumentProcessor.type_mapping !! (String "." (lower ext))))
    as Heq.
  { rewrite <- UploadFacts.get_file_type_lower. unfold DocumentProcessor.get_file_type.
    rewrite lower_app. change (lower (String "." ext)) with (String "." (lower ext)).
    rewrite path_suffix_plain.
    - change (lower (String "." (lower ext))) with (String "." (lower (lower ext))).
      by rewrite lower_idem.
    - by destruct stem.
    - intros Hempty. rewrite Hempty in Hext.
      repeat (apply elem_of_cons in Hext as [Hext | Hext]; [done |]).
      by apply elem_of_nil in Hext.
    - by rewrite has_char_slash_lower.
    - repeat (apply elem_of_cons in Hext as [-> | Hext]; [done |]).
      by apply elem_of_nil in Hext.
    - repeat (apply elem_of_cons in Hext as [-> | Hext]; [done |]).
      by apply elem_of_nil in Hext. }
  split; [exact Heq |]. rewrite Heq.
  repeat (apply elem_of_cons in Hext as [-> | Hext]; [by vm_compute |]).
  by apply elem_of_nil in Hext.
Qed.

End TextMore.

(** ** More on the cache and on the chunker *)
Module CacheMore.
Import RAGPipeline Main SearchMore PipelineFacts PipelineMore MainFacts MainMore.


Section Cache.
Context `{Capabilities}.


(** X10.  The fallback is not cached.  After [generate_answer] has returned
    the fallback for a query (no sources, not cached), the same query
    asked again is embedded and searched again, and gets the fallback
    again while the index has nothing for it. *)
Theorem fallback_not_cached (query session_id session_id' : string) (w w1 : World)
    (bundle : Bundle.t) :
  generate_answer query session_id true w = (Ok bundle, w1) ->
  Bundle.cached bundle = false ->
  Bundle.sources bundle = [] ->
  exists bundle' w2,
    generate_answer query session_id' true w1 = (Ok bundle', w2)
    /\ Bundle.answer bundle' = not_found_answer
    /\ Bundle.cached bundle' = false
    /\ calls w2 = calls w1 ++ [EmbedQuery query]
    /\ redis w2 = redis w /\ chat_history w2 = chat_history w.
Proof.
  intros Hrun Hcached Hsources.
  generate_answer_paths query session_id true w Hrun; try done;
    injection Hrun as <- <-; try done.
  eexists _, _. split.
  - eapply generate_answer_fallback; [exact Hmiss | exact He | exact Hs].
  - done.
Qed.

End Cache.
End CacheMore.

(** ** The size of the chunks *)
Module ChunkerMore.
Import Py RecursiveCharacterTextSplitter ChunkerFacts.

Lemma length_lstrip (s : string) : (String.length (lstrip s) <= String.length s)%nat.
Proof. induction s as [| c s IH]; simpl; [done |]. destruct (isspace c); simpl; lia. Qed.

Lemma length_rstrip (s : string) : (String.length (rstrip s) <= String.length s)%nat.
Proof.
  induction s as [| c s IH]; simpl; [done |].
  destruct (is_empty (rstrip s) && isspace c); simpl; lia.
Qed.

Lemma len_strip (s : string) : (len (strip s) <= len s)%Z.
Proof.
  unfold len, strip. pose proof (length_rstrip (lstrip s)). pose proof (length_lstrip s). lia.
Qed.

Lemma length_append (s t : string) :
  String.length (s +:+ t) = (String.length s + String.length t)%nat.
Proof. induction s as [| c s IH]; simpl; [done |]. by rewrite IH. Qed.

Lemma len_join_empty (docs : list string) : len (join "" docs) = total_len docs.
Proof.
  induction docs as [| d docs IH]; [done |].
  destruct docs as [| d' docs]; [unfold total_len, len; simpl; lia |].
  change (join "" (d :: d' :: docs)) with (d +:+ "" +:+ join "" (d' :: docs)).
  change (total_len (d :: d' :: docs)) with (len d + total_len (d' :: docs))%Z.
  rewrite <- IH. unfold len. rewrite !length_append. simpl. lia.
Qed.

Lemma total_len_nonneg (docs : list string) : (0 <= total_len docs)%Z.
Proof. induction docs as [| d docs IH]; unfold total_len, len in *; simpl; lia. Qed.

Lemma total_len_app (docs : list string) (d : string) :
  total_len (docs ++ [d]) = (total_len docs + len d)%Z.
Proof. induction docs as [| d' docs IH]; unfold total_len in *; simpl; lia. Qed.

Lemma _join_docs_len (docs : list string) (doc : string) :
  _join_docs docs "" = Some doc -> (len doc <= total_len docs)%Z.
Proof.
  unfold _join_docs. destruct (is_empty _); [done |]. intros [= <-].
  rewrite <- len_join_empty. apply len_strip.
Qed.

Section Bound.
Variable self : t.

(** the loop of [_merge_splits] keeps the running total equal to the
    characters in [current_doc], and leaves room for the next piece *)
Lemma pop_front_total (_len : Z) (current_doc : list string) (total : Z) :
  total = total_len current_doc ->
  let '(current_doc', total') := pop_front self _len 0 current_doc total in
  total' = total_len current_doc'
  /\ (total' = 0 \/ total' + _len <= chunk_size self)%Z.
Proof.
  revert total. induction current_doc as [| d0 rest IH]; intros total Htotal.
  - simpl. split; [done |]. left. by rewrite Htotal.
  - cbn [pop_front]. unfold sep_share.
    destruct (_ || _) eqn:Hcond.
    + destruct (1 <? length (d0 :: rest))%nat;
        apply IH; rewrite Htotal; unfold total_len; simpl; lia.
    + split; [done |]. apply orb_false_iff in Hcond as [_ Hcond].
      apply andb_false_iff in Hcond as [Hfit | Hzero].
      * right. destruct (0 <? length (d0 :: rest))%nat; lia.
      * left. pose proof (total_len_nonneg (d0 :: rest)). lia.
Qed.

Lemma merge_step_bounded (st : list string * list string * Z) (d : string) :
  small self d ->
  Forall (bounded self) st.1.1 /\ st.2 = total_len st.1.2 /\ (st.2 <= chunk_size self)%Z ->
  let st' := merge_step self "" st d in
  Forall (bounded self) st'.1.1 /\ st'.2 = total_len st'.1.2 /\ (st'.2 <= chunk_size self)%Z.
Proof.
  destruct st as [[docs current_doc] total]. unfold small. simpl.
  intros Hd (Hdocs & Htotal & Hle). unfold merge_step.
  change (len "") with 0%Z.
  assert (forall n l, sep_share 0 n l = 0%Z) as Hshare
    by (intros n l; unfold sep_share; by destruct (n <? length l)%nat).
  rewrite !Hshare.
  destruct (chunk_size self <? total + len d + 0)%Z eqn:Hover.
  - destruct (0 <? length current_doc)%nat eqn:Hcur.
    + pose proof (pop_front_total (len d) current_doc total Htotal) as Hpop.
      destruct (pop_front self (len d) 0 current_doc total) as [current_doc' total'].
      destruct Hpop as [Htotal' Hroom]. simpl. rewrite Hshare, total_len_app.
      split; [| split; [lia | lia]].
      destruct (_join_docs current_doc "") as [doc |] eqn:Hjoin; [| done].
      apply Forall_app. split; [done |]. apply Forall_singleton. unfold bounded.
      apply _join_docs_len in Hjoin. lia.
    + simpl. rewrite Hshare, total_len_app. split; [done |]. split; [lia |].
      destruct current_doc; [| done]. unfold total_len in Htotal. simpl in Htotal. lia.
  - simpl. rewrite Hshare, total_len_app. split; [done |]. split; [lia |]. lia.
Qed.

Lemma _merge_splits_bounded (splits : list string) :
  (0 <= chunk_size self)%Z -> Forall (small self) splits ->
  Forall (bounded self) (_merge_splits self splits "").
Proof.
  intros Hsize Hsplits. unfold _merge_splits.
  assert (forall st,
    Forall (bounded self) st.1.1 /\ st.2 = total_len st.1.2 /\ (st.2 <= chunk_size self)%Z ->
    let st' := fold_left (merge_step self "") splits st in
    Forall (bounded self) st'.1.1 /\ st'.2 = total_len st'.1.2 /\ (st'.2 <= chunk_size self)%Z)
    as Hfold.
  { induction splits as [| d splits IH]; intros st Hst; [done |].
    apply Forall_cons in Hsplits as [Hd Hsplits]. simpl. apply IH; [done |].
    by apply merge_step_bounded. }
  specialize (Hfold ([], [], 0%Z) ltac:(done)). simpl in Hfold.
  destruct (fold_left _ _ _) as [[docs current_doc] total]. simpl in Hfold.
  destruct Hfold as (Hdocs & Htotal & Hle).
  destruct (_join_docs current_doc "") as [doc |] eqn:Hjoin; [| done].
  apply Forall_app. split; [done |]. apply Forall_singleton. unfold bounded.
  apply _join_docs_len in Hjoin. lia.
Qed.

Lemma split_with_bounded (recur : option (string -> list string)) (separator text : string) :
  (0 <= chunk_size self)%Z ->
  (forall split_rest s, recur = Some split_rest -> Forall (bounded self) (split_rest s)) ->
  (recur = None -> Forall (small self) (_split_text_with_regex text separator)) ->
  Forall (bounded self) (split_with self recur separator text).
Proof.
  intros Hsize Hrec Hsmall. unfold split_with.
  set (flush := fun final_chunks _good_splits : list string =>
    match _good_splits with
    | [] => final_chunks
    | _ => final_chunks ++ _merge_splits self _good_splits ""
    end).
  assert (forall f g, Forall (bounded self) f -> Forall (small self) g -> Forall (bounded self) (flush f g))
    as Hflush.
  { intros f g Hf Hg. unfold flush. destruct g; [done |].
    apply Forall_app. split; [done | by apply _merge_splits_bounded]. }
  generalize dependent (_split_text_with_regex text separator). intros splits Hsmall.
  assert (forall st : list string * list string,
    Forall (bounded self) st.1 -> Forall (small self) st.2 ->
    Forall (bounded self)
      (let '(final_chunks, _good_splits) :=
         fold_left
           (fun '(final_chunks, _good_splits) s =>
              if (Py.len s <? chunk_size self)%Z
              then (final_chunks, _good_splits ++ [s])
              else
                match recur with
                | None => (flush final_chunks _good_splits ++ [s], [])
                | Some split_rest => (flush final_chunks _good_splits ++ split_rest s, [])
                end) splits st in
       flush final_chunks _good_splits)) as Hfold.
  { induction splits as [| s splits IH]; intros [f g] Hf Hg; simpl in *.
    - by apply Hflush.
    - destruct (Z.ltb_spec (len s) (chunk_size self)) as [Hs | Hs].
      + apply IH; simpl; [| done |].
        * intros Hnone. specialize (Hsmall Hnone). by apply Forall_cons in Hsmall as [_ ?].
        * apply Forall_app. split; [done |]. by apply Forall_singleton.
      + destruct recur as [split_rest |].
        * apply IH; simpl; [done | | done].
          apply Forall_app. split; [by apply Hflush | by eapply Hrec].
        * specialize (Hsmall eq_refl). apply Forall_cons in Hsmall as [Hs' _].
          unfold small in Hs'. lia. }
  by apply (Hfold ([], [])).
Qed.

(** the pieces of a split on the empty separator are single characters *)
Lemma chars_small (text : string) :
  (1 < chunk_size self)%Z -> Forall (small self) (_split_text_with_regex text "").
Proof.
  intros Hsize. unfold _split_text_with_regex. simpl.
  apply Forall_forall. intros s Hs. apply list_elem_of_In, filter_In in Hs as [Hs _].
  assert (Forall (fun s => len s = 1%Z) (chars text)) as Hone
    by (clear; induction text; by constructor).
  rewrite Forall_forall in Hone. unfold small.
  rewrite (Hone s) by by apply list_elem_of_In. done.
Qed.

Lemma _split_text_bounded (separators : list string) (text : string) :
  (1 < chunk_size self)%Z ->
  List.last separators "." = "" ->
  Forall (bounded self) (_split_text self separators text).
Proof.
  intros Hsize. revert text.
  induction separators as [| _s new_separators IH]; intros text Hlast; [done |].
  cbn [_split_text]. destruct (is_empty _s) eqn:Hempty.
  { apply PyFacts.is_empty_true in Hempty as ->.
    apply split_with_bounded; [lia | done | intros _; by apply chars_small]. }
  destruct new_separators as [| s' rest].
  { simpl in Hlast. by rewrite Hlast in Hempty. }
  destruct (contains _s text).
  - apply split_with_bounded; [lia | | done].
    intros split_rest s [= <-]. by apply IH.
  - by apply IH.
Qed.

End Bound.

(** X27.  No chunk exceeds the chunk size: for a processor whose chunk size is
    above one character, every chunk [chunk_text] yields has at most
    [chunk_size] characters. *)
Theorem chunk_text_bounded (self : DocumentProcessor.t) (text : string)
    (metadata : option DocumentProcessor.metadata_t) :
  (1 < DocumentProcessor.chunk_size self)%Z ->
  Forall (fun c => (len (ChunkDoc.content c) <= DocumentProcessor.chunk_size self)%Z)
    (DocumentProcessor.chunk_text self text metadata).
Proof.
  intros Hsize. unfold DocumentProcessor.chunk_text.
  pose proof (_split_text_bounded (DocumentProcessor.text_splitter self) separators text
                Hsize eq_refl) as Hall.
  apply Forall_forall. intros c Hc.
  apply list_elem_of_lookup in Hc as [i Hc]. rewrite list_lookup_imap in Hc.
  destruct (split_text _ text !! i) as [s |] eqn:Hs; [| done].
  simpl in Hc. injection Hc as <-. simpl.
  rewrite Forall_forall in Hall. apply (Hall s). by eapply list_elem_of_lookup_2.
Qed.

End ChunkerMore.

(** ** The theorems at concrete inputs *)
Module Witnesses.
Import RAGPipeline Main TestDoubles.


Lemma generate_answer_no_context_witness :
  cache_miss question true empty_world
  /\ embed_query question = Ok [1; 0]%Q
  /\ vector_search (document_chunks empty_world) [1; 0]%Q 5 (7 # 10) = Ok []
  /\ exists w',
       generate_answer question "s" true empty_world =
         (Ok (Bundle.mk not_found_answer [] (time_time 1 - time_time 0) false), w')
       /\ calls w' = [EmbedQuery question]
       /\ redis w' = ∅
       /\ chat_history w' = [].
Proof.
  assert (cache_miss question true empty_world) as Hmiss by (intros _; reflexivity).
  split; [exact Hmiss |]. split; [reflexivity |]. split; [reflexivity |].
  exact (PipelineFacts.generate_answer_no_context question "s" true empty_world [1; 0]%Q
           Hmiss eq_refl eq_refl).
Defined.


Lemma generate_answer_cache_hit_witness :
  cache_enabled answered_world = true
  /\ redis answered_world !! _get_cache_key "  what is DOCUMIND?  " =
       Some (json_dumps (Bundle.mk "It is a platform." (source_entry <$> world_results)
                           (time_time 1 - time_time 0) false), 3600%Z)
  /\ generate_answer "  what is DOCUMIND?  " "s" true answered_world =
       (Ok (Bundle.mk "It is a platform." (source_entry <$> world_results)
              (time_time 3 - time_time 2) true),
        set_clock 4 answered_world).
Proof.
  split; [reflexivity |]. split; [vm_compute; reflexivity |].
  etransitivity.
  - apply (PipelineFacts.generate_answer_cache_hit "  what is DOCUMIND?  " "s" answered_world
             (json_dumps (Bundle.mk "It is a platform." (source_entry <$> world_results)
                            (time_time 1 - time_time 0) false)) 3600);
      [reflexivity | vm_compute; reflexivity].
  - vm_compute. reflexivity.
Defined.


Lemma chunk_text_spec_witness :
  let chunks := DocumentProcessor.chunk_text (DocumentProcessor.mk 10 3)
                  "hello world foo bar" None in
  (forall (i : nat) (c : ChunkDoc.t),
     chunks !! i = Some c -> ChunkDoc.chunk_index c = Z.of_nat i)
  /\ ("hello world foo bar" <> "" -> Forall (fun c => ChunkDoc.content c <> "") chunks)
  /\ DocumentProcessor.chunk_text (DocumentProcessor.mk 10 3) "" None = [].
Proof.
  exact (ChunkerFacts.chunk_text_spec (DocumentProcessor.mk 10 3) "hello world foo bar" None).
Defined.

Lemma worker_recovers_witness :
  (exists text metadata w1,
     DocumentProcessor.extract_text "/tmp/documind_uploads/empty.txt" "txt" uploaded_world
       = (Ok (text, metadata), w1)
     /\ embed_documents
          (ChunkDoc.content <$>
             DocumentProcessor.chunk_text document_processor text (Some metadata))
        = Raise (Exception "BadRequestError" "empty input"))
  /\ exists w',
       process_document_background 1 "/tmp/documind_uploads/empty.txt" "txt" uploaded_world
         = (Ok tt, w')
       /\ stdout w' = ["Error processing document 1: empty input"]
       /\ (forall d, d ∈ documents w' -> Document.id d = 1%Z -> Document.processed d = false)
       /\ document_chunks w' = [].
Proof.
  assert (exists text metadata w1,
     DocumentProcessor.extract_text "/tmp/documind_uploads/empty.txt" "txt" uploaded_world
       = (Ok (text, metadata), w1)
     /\ embed_documents
          (ChunkDoc.content <$>
             DocumentProcessor.chunk_text document_processor text (Some metadata))
        = Raise (Exception "BadRequestError" "empty input")) as Hfail.
  { eexists _, _, _. split; [vm_compute; reflexivity | reflexivity]. }
  split; [exact Hfail |].
  destruct (WorkerFacts.worker_recovers uploaded_world 1 "/tmp/documind_uploads/empty.txt"
              "txt" (Exception "BadRequestError" "empty input") (or_intror Hfail))
    as (w' & Hrun & Hout & _ & Hflag & _ & Hchunks).
  exists w'. split; [exact Hrun |]. split; [exact Hout |]. split; [exact Hflag |].
  exact Hchunks.
Defined.

Lemma get_file_type_spec_witness :
  DocumentProcessor.get_file_type "setup.EXE" = "unknown"
  /\ DocumentProcessor.get_file_type "Report.PDF" = DocumentProcessor.get_file_type "report.pdf"
  /\ exists e,
       upload_document (UploadFile.mk "setup.EXE" [77; 90]%N) world = (Raise e, world).
Proof.
  destruct (UploadFacts.get_file_type_spec "setup.EXE") as (_ & _ & _ & _ & _ & _ & Hrej).
  destruct (UploadFacts.get_file_type_spec "report.pdf") as (_ & _ & _ & _ & _ & Hcase & _).
  split; [reflexivity |]. split; [apply Hcase; reflexivity |].
  apply Hrej. reflexivity.
Defined.

End Witnesses.

(** ** Further theorems at concrete inputs *)
Module MoreWitnesses.
Import RAGPipeline Main TestDoubles.



Lemma vector_search_provenance_witness :
  vector_search (document_chunks world) [1; 0]%Q 5 (7 # 10) = Ok world_results
  /\ (DocumentChunk.mk 2 1 1 "It answers questions." None ∅, (20 # 25)%Q) ∈ world_results
  /\ exists row embedding,
       row ∈ document_chunks world
       /\ DocumentChunk.embedding row = Some embedding
       /\ (20 # 25)%Q = (1 - cosine_distance embedding [1; 0])%Q
       /\ DocumentChunk.mk 2 1 1 "It answers questions." None ∅ =
            DocumentChunk.mk (DocumentChunk.id row) (DocumentChunk.document_id row)
              (DocumentChunk.chunk_index row) (DocumentChunk.content row) None
              (DocumentChunk.metadata row).
Proof.
  assert ((DocumentChunk.mk 2 1 1 "It answers questions." None ∅, (20 # 25)%Q)
            ∈ world_results) as Hin
    by (apply list_elem_of_further, list_elem_of_here).
  split; [vm_compute; reflexivity |]. split; [exact Hin |].
  exact (SearchMore.vector_search_provenance (document_chunks world) [1; 0]%Q 5 (7 # 10)
           world_results _ _ eq_refl Hin).
Defined.


Lemma generate_answer_frame_witness :
  generate_answer question "s" true world =
    ((generate_answer question "s" true world).1, answered_world)
  /\ documents answered_world = documents world
  /\ document_chunks answered_world = document_chunks world
  /\ files answered_world = files world
  /\ background_tasks answered_world = background_tasks world
  /\ cache_enabled answered_world = cache_enabled world.
Proof.
  assert (generate_answer question "s" true world =
            ((generate_answer question "s" true world).1, answered_world)) as Hrun
    by (vm_compute; reflexivity).
  split; [exact Hrun |].
  exact (PipelineMore.generate_answer_frame question "s" true world answered_world _ Hrun).
Defined.


Lemma generate_answer_history_witness :
  generate_answer question "s" true world =
    (Ok (Bundle.mk "It is a platform." (source_entry <$> world_results)
           (time_time 1 - time_time 0) false), answered_world)
  /\ chat_history answered_world =
       chat_history world ++
         [ChatHistory.mk 1 "s" question "It is a platform."
            (json_dumps (source_entry <$> world_results)) (time_time 1 - time_time 0)].
Proof.
  assert (generate_answer question "s" true world =
            (Ok (Bundle.mk "It is a platform." (source_entry <$> world_results)
                   (time_time 1 - time_time 0) false), answered_world)) as Hrun
    by (vm_compute; reflexivity).
  split; [exact Hrun |].
  destruct (PipelineMore.generate_answer_history question "s" true world _ _ Hrun)
    as [_ Hrow].
  apply Hrow; [reflexivity | discriminate].
Defined.

Lemma generate_answer_cache_unused_witness :
  generate_answer question "s" false answered_world =
    ((generate_answer question "s" false answered_world).1,
     (generate_answer question "s" false answered_world).2)
  /\ forall bundle,
       (generate_answer question "s" false answered_world).1 = Ok bundle ->
       Bundle.cached bundle = false.
Proof.
  split; [by destruct (generate_answer question "s" false answered_world) |].
  destruct (PipelineMore.generate_answer_cache_unused question "s" false answered_world
              (generate_answer question "s" false answered_world).2
              (generate_answer question "s" false answered_world).1) as [Hflag _].
  - by destruct (generate_answer question "s" false answered_world).
  - by apply Hflag.
Defined.


Lemma delete_document_invalidates_witness :
  (delete_document 1 answered_world).1 = Ok "Document deleted successfully"
  /\ forall bundle w2,
       generate_answer question "s" true (delete_document 1 answered_world).2 = (Ok bundle, w2) ->
       Bundle.cached bundle = false.
Proof.
  assert (delete_document 1 answered_world =
            (Ok "Document deleted successfully", (delete_document 1 answered_world).2))
    as Hdel by (vm_compute; reflexivity).
  split; [vm_compute; reflexivity |]. intros bundle w2.
  exact (MainMore.delete_document_invalidates 1 answered_world _ w2 _ question "s" true
           bundle Hdel).
Defined.

Lemma unknown_document_404_witness :
  (forall d, d ∈ documents world -> Document.id d <> 99%Z)
  /\ get_document 99 world = (Raise (HTTPException 404 "Document not found"), world)
  /\ delete_document 99 world = (Raise (HTTPException 404 "Document not found"), world).
Proof.
  assert (forall d, d ∈ documents world -> Document.id d <> 99%Z) as Hnone.
  { intros d Hd. apply list_elem_of_singleton in Hd as ->. discriminate. }
  split; [exact Hnone |]. exact (MainMore.unknown_document_404 99 world Hnone).
Defined.



Lemma upload_then_get_document_witness :
  unique_ids empty_world
  /\ upload_document (UploadFile.mk "notes.txt" [104; 105]%N) empty_world =
       (Ok (DocumentResponse.mk 1 "notes.txt" "txt" 2 None false), notes_world)
  /\ get_document 1 notes_world =
       (Ok (DocumentResponse.mk 1 "notes.txt" "txt" 2 None false), notes_world).
Proof.
  assert (unique_ids empty_world) as Hunique.
  { split; [apply NoDup_nil_2 |]. intros d Hd. by apply elem_of_nil in Hd. }
  assert (upload_document (UploadFile.mk "notes.txt" [104; 105]%N) empty_world =
            (Ok (DocumentResponse.mk 1 "notes.txt" "txt" 2 None false), notes_world))
    as Hup by (vm_compute; reflexivity).
  split; [exact Hunique |]. split; [exact Hup |].
  exact (IngestMore.upload_then_get_document _ empty_world notes_world _ Hunique Hup).
Defined.

Lemma delete_then_get_document_witness :
  delete_document 1 world =
    (Ok "Document deleted successfully", (delete_document 1 world).2)
  /\ get_document 1 (delete_document 1 world).2 =
       (Raise (HTTPException 404 "Document not found"), (delete_document 1 world).2).
Proof.
  assert (delete_document 1 world =
            (Ok "Document deleted successfully", (delete_document 1 world).2)) as Hdel
    by (vm_compute; reflexivity).
  split; [exact Hdel |].
  exact (IngestMore.delete_then_get_document 1 world _ _ Hdel).
Defined.

Lemma extract_text_result_witness :
  DocumentProcessor.extract_text "/tmp/documind_uploads/notes.txt" "txt" notes_world =
    (Ok ("hi", <["file_type" := MStr "txt"]> ∅), notes_world)
  /\ Py.strip "hi" = "hi"
  /\ (<["file_type" := MStr "txt"]> (∅ : DocumentProcessor.metadata_t)) !! "file_type"
       = Some (MStr "txt")
  /\ "txt" ∈ ["pdf"; "docx"; "xlsx"; "txt"]
  /\ notes_world = notes_world.
Proof.
  assert (DocumentProcessor.extract_text "/tmp/documind_uploads/notes.txt" "txt" notes_world =
            (Ok ("hi", <["file_type" := MStr "txt"]> ∅), notes_world)) as Hx
    by (vm_compute; reflexivity).
  split; [exact Hx |].
  exact (IngestMore.extract_text_result _ _ notes_world notes_world _ _ Hx).
Defined.

Lemma extract_text_errors_witness :
  ("PDF" ∉ ["pdf"; "docx"; "xlsx"; "txt"])
  /\ DocumentProcessor.extract_text "/tmp/documind_uploads/notes.txt" "PDF" notes_world =
       (Raise (Exception "ValueError" "Unsupported file type: PDF"), notes_world).
Proof.
  assert ("PDF" ∉ ["pdf"; "docx"; "xlsx"; "txt"]) as Hnot.
  { rewrite !elem_of_cons, elem_of_nil. intros [? | [? | [? | [? | []]]]]; discriminate. }
  split; [exact Hnot |].
  exact (IngestMore.extract_text_errors "/tmp/documind_uploads/notes.txt" "PDF" notes_world
           Hnot).
Defined.


Lemma worker_document_gone_witness :
  DocumentProcessor.extract_text "/tmp/documind_uploads/notes.txt" "txt" notes_world =
    (Ok ("hi", <["file_type" := MStr "txt"]> ∅), notes_world)
  /\ embed_documents
       (ChunkDoc.content <$>
          DocumentProcessor.chunk_text document_processor "hi"
            (Some (<["file_type" := MStr "txt"]> ∅)))
     = Ok [[1; 0]%Q]
  /\ (forall d, d ∈ documents notes_world -> Document.id d <> 7%Z)
  /\ exists w',
       process_document_background 7 "/tmp/documind_uploads/notes.txt" "txt" notes_world
         = (Ok tt, w')
       /\ document_chunks w' = document_chunks notes_world
       /\ documents w' = documents notes_world
       /\ files w' = files notes_world
       /\ stdout w' =
            ["Error processing document 7: 'NoneType' object has no attribute 'content'"].
Proof.
  assert (DocumentProcessor.extract_text "/tmp/documind_uploads/notes.txt" "txt" notes_world =
            (Ok ("hi", <["file_type" := MStr "txt"]> ∅), notes_world)) as Hx
    by (vm_compute; reflexivity).
  assert (forall d, d ∈ documents notes_world -> Document.id d <> 7%Z) as Hnone.
  { intros d Hd. apply list_elem_of_singleton in Hd as ->. discriminate. }
  assert (embed_documents
            (ChunkDoc.content <$>
               DocumentProcessor.chunk_text document_processor "hi"
                 (Some (<["file_type" := MStr "txt"]> ∅)))
          = Ok [[1; 0]%Q]) as Hemb by (vm_compute; reflexivity).
  split; [exact Hx |]. split; [exact Hemb |]. split; [exact Hnone |].
  exact (WorkerMore.worker_document_gone notes_world 7 "/tmp/documind_uploads/notes.txt" "txt"
           "hi" (<["file_type" := MStr "txt"]> ∅) notes_world [[1; 0]%Q] Hx Hemb Hnone).
Defined.

Lemma handlers_keep_tables_consistent_witness :
  unique_ids world /\ no_orphans world
  /\ unique_ids (delete_document 1 world).2 /\ no_orphans (delete_document 1 world).2
  /\ unique_ids (upload_document (UploadFile.mk "notes.txt" [104; 105]%N) world).2
  /\ no_orphans (upload_document (UploadFile.mk "notes.txt" [104; 105]%N) world).2.
Proof.
  assert (unique_ids world) as Hunique.
  { split; [apply NoDup_singleton |].
    intros d Hd. apply list_elem_of_singleton in Hd as ->. reflexivity. }
  assert (no_orphans world) as Horphans.
  { intros c Hc. eexists. split; [apply list_elem_of_here |].
    repeat (apply elem_of_cons in Hc as [-> | Hc]; [reflexivity |]).
    by apply elem_of_nil in Hc. }
  destruct (WorkerMore.handlers_keep_tables_consistent world Hunique Horphans)
    as (Hupload & _ & Hdelete & _).
  split; [exact Hunique |]. split; [exact Horphans |].
  destruct (Hdelete 1%Z (delete_document 1 world).1 (delete_document 1 world).2) as [? ?];
    [by destruct (delete_document 1 world) |].
  destruct (Hupload (UploadFile.mk "notes.txt" [104; 105]%N)
              (upload_document (UploadFile.mk "notes.txt" [104; 105]%N) world).1
              (upload_document (UploadFile.mk "notes.txt" [104; 105]%N) world).2) as [? ?];
    [by destruct (upload_document _ world) |].
  done.
Defined.

Lemma upload_path_plain_witness :
  Py.has_char "/" "notes.txt" = false
  /\ Py.is_component "notes.txt" = true
  /\ path_div UPLOAD_DIR "notes.txt" = "/tmp/documind_uploads/notes.txt".
Proof.
  split; [vm_compute; reflexivity |]. split; [vm_compute; reflexivity |].
  exact (TextMore.upload_path_plain "notes.txt" eq_refl eq_refl).
Defined.

Lemma get_file_type_plain_witness :
  "Annual Report (final)" <> ""
  /\ Py.has_char "/" "Annual Report (final)" = false
  /\ Py.lower "DocX" ∈ ["pdf"; "docx"; "doc"; "xlsx"; "xls"; "txt"]
  /\ DocumentProcessor.get_file_type "Annual Report (final).DocX" = "docx"
  /\ DocumentProcessor.get_file_type "Annual Report (final).DocX" <> "unknown".
Proof.
  assert (Py.lower "DocX" ∈ ["pdf"; "docx"; "doc"; "xlsx"; "xls"; "txt"]) as Hext
    by (apply list_elem_of_further, list_elem_of_here).
  split; [discriminate |]. split; [vm_compute; reflexivity |]. split; [exact Hext |].
  exact (TextMore.get_file_type_plain "Annual Report (final)" "DocX" ltac:(discriminate)
           eq_refl Hext).
Defined.

Lemma fallback_not_cached_witness :
  generate_answer question "s" true empty_world =
    (Ok (Bundle.mk not_found_answer [] (time_time 1 - time_time 0) false),
     (generate_answer question "s" true empty_world).2)
  /\ exists bundle' w2,
       generate_answer question "again" true (generate_answer question "s" true empty_world).2
         = (Ok bundle', w2)
       /\ Bundle.answer bundle' = not_found_answer
       /\ Bundle.cached bundle' = false
       /\ calls w2 = [EmbedQuery question; EmbedQuery question]
       /\ redis w2 = ∅ /\ chat_history w2 = [].
Proof.
  assert (generate_answer question "s" true empty_world =
            (Ok (Bundle.mk not_found_answer [] (time_time 1 - time_time 0) false),
             (generate_answer question "s" true empty_world).2)) as Hrun by (vm_compute; reflexivity).
  split; [exact Hrun |].
  exact (CacheMore.fallback_not_cached question "s" "again" empty_world _ _ Hrun
           eq_refl eq_refl).
Defined.

Lemma chunk_text_bounded_witness :
  (1 < DocumentProcessor.chunk_size (DocumentProcessor.mk 10 3))%Z
  /\ Forall (fun c => (Py.len (ChunkDoc.content c) <= 10)%Z)
       (DocumentProcessor.chunk_text (DocumentProcessor.mk 10 3)
          "hello world foo bar baz qux quux" None).
Proof.
  split; [vm_compute; reflexivity |].
  exact (ChunkerMore.chunk_text_bounded (DocumentProcessor.mk 10 3)
           "hello world foo bar baz qux quux" None eq_refl).
Defined.

End MoreWitnesses.
